(** * jira_releases.py: a shallow embedding and its verification

    The program queries the REST API of an issue tracker for the versions
    (releases) of a project, or for the issues of one version, and prints
    the answer as an aligned table or as JSON.

    Python values that come out of [response.json()] are modelled by the
    inductive type [json]; Python [str] by [string], one [ascii] per code
    point (the code points below 256); Python [int] by [Z].  Floating-point
    numbers are not part of the model.  Printing, the HTTP request and
    raised exceptions are explicit: a computation returns the trace of its
    events together with a value or the exception that ended it. *)

From Stdlib Require Import String Ascii List ZArith NArith Arith Lia Bool.
From Stdlib Require Import Decimal DecimalString DecimalZ DecimalFacts.
From Stdlib Require Import Sorting.Sorted Sorting.Permutation.
From ExtLib Require Import Structures.Monad.
Import ListNotations.
Import MonadNotation.

Local Open Scope list_scope.
Local Open Scope string_scope.
Local Open Scope monad_scope.

(* ===================================================================== *)
(** * Python strings *)
(* ===================================================================== *)

Module Str.

(** ["c" * n] *)
Fixpoint replicate (n : nat) (c : ascii) : string :=
  match n with
  | O => EmptyString
  | S n' => String c (replicate n' c)
  end.

(** [s.endswith('/')] *)
Fixpoint endswith_slash (s : string) : bool :=
  match s with
  | EmptyString => false
  | String c EmptyString => Ascii.eqb c "/"
  | String _ s' => endswith_slash s'
  end.

(** [s[:-1]] *)
Fixpoint drop_last (s : string) : string :=
  match s with
  | EmptyString => EmptyString
  | String _ EmptyString => EmptyString
  | String c s' => String c (drop_last s')
  end.

(** [s[:n]] *)
Definition take (n : nat) (s : string) : string := substring 0 n s.

(** Does the character occur in the string? *)
Fixpoint mem (c : ascii) (s : string) : bool :=
  match s with
  | EmptyString => false
  | String d s' => Ascii.eqb c d || mem c s'
  end.

(** [str(n)] for an [int]. *)
Definition of_Z (n : Z) : string := NilZero.string_of_int (Z.to_int n).

(** [str(n)] for a length. *)
Definition of_nat (n : nat) : string := of_Z (Z.of_nat n).

(** The format specification [<w] applied to text: left-aligned, padded
    with spaces up to [w] code points, never truncated. *)
Definition ljust (w : nat) (s : string) : string :=
  s ++ replicate (w - String.length s) " ".

(** One hexadecimal digit, lower case. *)
Definition hex_digit (n : N) : ascii :=
  match n with
  | 0%N => "0" | 1%N => "1" | 2%N => "2" | 3%N => "3" | 4%N => "4"
  | 5%N => "5" | 6%N => "6" | 7%N => "7" | 8%N => "8" | 9%N => "9"
  | 10%N => "a" | 11%N => "b" | 12%N => "c" | 13%N => "d" | 14%N => "e"
  | _ => "f"
  end%char.

(** One hexadecimal digit, upper case. *)
Definition hex_digit_upper (n : N) : ascii :=
  match n with
  | 10%N => "A" | 11%N => "B" | 12%N => "C" | 13%N => "D" | 14%N => "E"
  | 15%N => "F"
  | _ => hex_digit n
  end%char.

(** The value of a hexadecimal digit of either case. *)
Definition hex_value (c : ascii) : option N :=
  let n := N_of_ascii c in
  if (48 <=? n)%N && (n <=? 57)%N then Some (n - 48)%N
  else if (97 <=? n)%N && (n <=? 102)%N then Some (n - 87)%N
  else if (65 <=? n)%N && (n <=? 70)%N then Some (n - 55)%N
  else None.

(** The two lower-case hexadecimal digits of a code point below 256. *)
Definition hex2 (c : ascii) : string :=
  let n := N_of_ascii c in
  String (hex_digit (n / 16)) (String (hex_digit (n mod 16)) EmptyString).

End Str.

(* ===================================================================== *)
(** * JSON values as Python objects *)
(* ===================================================================== *)

Unset Elimination Schemes.
Inductive json : Type :=
| JNull : json
| JBool : bool -> json
| JNum : Z -> json
| JStr : string -> json
| JList : list json -> json
| JDict : list (string * json) -> json.
Set Elimination Schemes.

(** Induction over a value and, through [Forall], over the items of a list
    and the values of a dict. *)
Section JsonInd.
Variable P : json -> Prop.
Hypothesis Hnull : P JNull.
Hypothesis Hbool : forall b, P (JBool b).
Hypothesis Hnum : forall n, P (JNum n).
Hypothesis Hstr : forall s, P (JStr s).
Hypothesis Hlist : forall l, Forall P l -> P (JList l).
Hypothesis Hdict : forall d, Forall (fun kv => P (snd kv)) d -> P (JDict d).

Fixpoint json_ind (v : json) : P v :=
  match v with
  | JNull => Hnull
  | JBool b => Hbool b
  | JNum n => Hnum n
  | JStr s => Hstr s
  | JList l =>
      Hlist l ((fix items (l : list json) : Forall P l :=
                  match l with
                  | [] => Forall_nil P
                  | x :: l' => Forall_cons x (json_ind x) (items l')
                  end) l)
  | JDict d =>
      Hdict d ((fix items (d : list (string * json))
                 : Forall (fun kv => P (snd kv)) d :=
                  match d with
                  | [] => Forall_nil _
                  | kv :: d' =>
                      Forall_cons (P := fun kv => P (snd kv)) kv
                        (json_ind (snd kv)) (items d')
                  end) d)
  end.
End JsonInd.

(** A Python dict keeps its keys in insertion order and holds each key
    once; [dict_get] is [d.get(k)] with [None] as Rocq's [None]. *)
Fixpoint dict_get (k : string) (d : list (string * json)) : option json :=
  match d with
  | [] => None
  | (k', v) :: d' => if String.eqb k k' then Some v else dict_get k d'
  end.

(** [d[k] = v]: an existing key keeps its place, a new one goes last. *)
Fixpoint dict_set (k : string) (v : json) (d : list (string * json))
  : list (string * json) :=
  match d with
  | [] => [(k, v)]
  | (k', v') :: d' =>
      if String.eqb k k' then (k, v) :: d' else (k', v') :: dict_set k v d'
  end.

(** Truth value of an object ([if x], [not x]). *)
Definition truthy (v : json) : bool :=
  match v with
  | JNull => false
  | JBool b => b
  | JNum n => negb (n =? 0)%Z
  | JStr s => negb (String.eqb s EmptyString)
  | JList l => match l with [] => false | _ => true end
  | JDict d => match d with [] => false | _ => true end
  end.

(* ===================================================================== *)
(** * [json.dumps(obj, indent=2)] and [json.loads] *)
(* ===================================================================== *)

Module Json.

(** The replacement of one code point inside a JSON string literal, as
    [ensure_ascii=True] writes it: the short escapes, [\u00xx] for what is
    not printable ASCII, the character itself otherwise. *)
Definition escape_char (c : ascii) : string :=
  let n := N_of_ascii c in
  if (n =? 34)%N then String "\" (String "034" EmptyString)
  else if (n =? 92)%N then "\\"
  else if (n =? 10)%N then "\n"
  else if (n =? 13)%N then "\r"
  else if (n =? 9)%N then "\t"
  else if (n =? 8)%N then "\b"
  else if (n =? 12)%N then "\f"
  else if (n <? 32)%N || (126 <? n)%N then "\u00" ++ Str.hex2 c
  else String c EmptyString.

Fixpoint escape (s : string) : string :=
  match s with
  | EmptyString => EmptyString
  | String c s' => escape_char c ++ escape s'
  end.

(** A string literal between double quotes. *)
Definition encode_string (s : string) : string :=
  String "034" (escape s ++ String "034" EmptyString).

(** A line break followed by the indentation of a nesting level. *)
Definition newline_indent (indent level : nat) : string :=
  String "010" (Str.replicate (indent * level) " ").

(** The encoder, at a nesting level: empty containers are written [[]] and
    [{}]; the items of the others each start a line, one level deeper,
    separated by a comma; a key and its value are separated by [": "]. *)
Fixpoint dumps_at (indent level : nat) (v : json) : string :=
  match v with
  | JNull => "null"
  | JBool true => "true"
  | JBool false => "false"
  | JNum n => Str.of_Z n
  | JStr s => encode_string s
  | JList [] => "[]"
  | JList l =>
      "[" ++ newline_indent indent (S level)
        ++ String.concat ("," ++ newline_indent indent (S level))
             (map (dumps_at indent (S level)) l)
        ++ newline_indent indent level ++ "]"
  | JDict [] => "{}"
  | JDict d =>
      "{" ++ newline_indent indent (S level)
        ++ String.concat ("," ++ newline_indent indent (S level))
             (map (fun kv => encode_string (fst kv) ++ ": "
                               ++ dumps_at indent (S level) (snd kv)) d)
        ++ newline_indent indent level ++ "}"
  end.

(** [json.dumps(obj, indent=n)] *)
Definition dumps (indent : nat) (v : json) : string := dumps_at indent 0 v.

(** ** The decoder

    [loads] follows Python's decoder on the values of the model: [None]
    stands for a [JSONDecodeError] and also for a document whose value is
    not in the model (a float, a code point above 255). *)

Definition is_ws (c : ascii) : bool :=
  let n := N_of_ascii c in
  (n =? 32)%N || (n =? 9)%N || (n =? 10)%N || (n =? 13)%N.

Fixpoint skip_ws (s : string) : string :=
  match s with
  | String c s' => if is_ws c then skip_ws s' else s
  | EmptyString => EmptyString
  end.

Definition digit_of (c : ascii) : option (uint -> uint) :=
  match c with
  | "0" => Some D0 | "1" => Some D1 | "2" => Some D2 | "3" => Some D3
  | "4" => Some D4 | "5" => Some D5 | "6" => Some D6 | "7" => Some D7
  | "8" => Some D8 | "9" => Some D9
  | _ => None
  end%char.

(** The longest run of decimal digits at the head of the text. *)
Fixpoint read_digits (s : string) : uint * string :=
  match s with
  | EmptyString => (Nil, EmptyString)
  | String c s' =>
      match digit_of c with
      | Some f => let (d, r) := read_digits s' in (f d, r)
      | None => (Nil, s)
      end
  end.

(** The integer part of a number: [0], or a digit run without a leading
    zero. *)
Definition read_nat (s : string) : option (uint * string) :=
  match read_digits s with
  | (Nil, _) => None
  | (D0 Nil, r) => Some (D0 Nil, r)
  | (D0 _, _) => None
  | (d, r) => Some (d, r)
  end.

(** A number; a fraction or an exponent after the integer part makes it a
    float, which the model does not hold. *)
Definition parse_number (s : string) : option (Z * string) :=
  let after (sign : uint -> int) (s : string) :=
    match read_nat s with
    | Some (d, r) =>
        match r with
        | String c _ =>
            if Ascii.eqb c "." || Ascii.eqb c "e" || Ascii.eqb c "E"
            then None else Some (Z.of_int (sign d), r)
        | EmptyString => Some (Z.of_int (sign d), r)
        end
    | None => None
    end in
  match s with
  | String "-" s' => after Neg s'
  | _ => after Pos s
  end.

(** The text after an opening quote, up to the closing one. *)
Fixpoint parse_string (s : string) : option (string * string) :=
  let cons (c : ascii) (r : option (string * string)) :=
    match r with
    | Some (t, rest) => Some (String c t, rest)
    | None => None
    end in
  match s with
  | EmptyString => None
  | String "034" rest => Some (EmptyString, rest)
  | String "\" (String "u" (String a (String b (String c (String d s'))))) =>
      match Str.hex_value a, Str.hex_value b,
            Str.hex_value c, Str.hex_value d with
      | Some 0%N, Some 0%N, Some h, Some l =>
          cons (ascii_of_N (16 * h + l)) (parse_string s')
      | _, _, _, _ => None
      end
  | String "\" (String e s') =>
      match e with
      | "034" => cons "034" (parse_string s')
      | "\" => cons "\" (parse_string s')
      | "/" => cons "/" (parse_string s')
      | "b" => cons "008" (parse_string s')
      | "f" => cons "012" (parse_string s')
      | "n" => cons "010" (parse_string s')
      | "r" => cons "013" (parse_string s')
      | "t" => cons "009" (parse_string s')
      | _ => None
      end%char
  | String c s' =>
      if (N_of_ascii c <? 32)%N then None else cons c (parse_string s')
  end.

(** The items of a non-empty array, after the opening bracket and the
    white space behind it. *)
Definition parse_items (value : string -> option (json * string))
  : nat -> string -> option (list json * string) :=
  fix items (fuel : nat) (s : string) :=
    match fuel with
    | O => None
    | S fuel' =>
        match value s with
        | None => None
        | Some (v, r) =>
            match skip_ws r with
            | String "]" r' => Some ([v], r')
            | String "," r' =>
                match items fuel' (skip_ws r') with
                | Some (vs, r'') => Some (v :: vs, r'')
                | None => None
                end
            | _ => None
            end
        end
    end.

(** The members of a non-empty object, from the opening quote of a key. *)
Definition parse_members (value : string -> option (json * string))
  : nat -> string -> option (list (string * json) * string) :=
  fix members (fuel : nat) (s : string) :=
    match fuel with
    | O => None
    | S fuel' =>
        match s with
        | String "034" s1 =>
            match parse_string s1 with
            | None => None
            | Some (k, r) =>
                match skip_ws r with
                | String ":" r1 =>
                    match value (skip_ws r1) with
                    | None => None
                    | Some (v, r2) =>
                        match skip_ws r2 with
                        | String "}" r' => Some ([(k, v)], r')
                        | String "," r' =>
                            match members fuel' (skip_ws r') with
                            | Some (kvs, r'') => Some ((k, v) :: kvs, r'')
                            | None => None
                            end
                        | _ => None
                        end
                    end
                | _ => None
                end
            end
        | _ => None
        end
    end.

(** The pairs of an object become a dict in reading order, a repeated key
    keeping its first place and its last value. *)
Definition dict_of_pairs (kvs : list (string * json)) : list (string * json) :=
  fold_left (fun d kv => dict_set (fst kv) (snd kv) d) kvs [].

Fixpoint parse_value (fuel : nat) (s : string) : option (json * string) :=
  match fuel with
  | O => None
  | S fuel' =>
      match s with
      | String "n" (String "u" (String "l" (String "l" r))) => Some (JNull, r)
      | String "t" (String "r" (String "u" (String "e" r))) =>
          Some (JBool true, r)
      | String "f" (String "a" (String "l" (String "s" (String "e" r)))) =>
          Some (JBool false, r)
      | String "034" s' =>
          match parse_string s' with
          | Some (t, r) => Some (JStr t, r)
          | None => None
          end
      | String "[" s' =>
          match skip_ws s' with
          | String "]" r => Some (JList [], r)
          | s1 =>
              match parse_items (parse_value fuel') fuel' s1 with
              | Some (vs, r) => Some (JList vs, r)
              | None => None
              end
          end
      | String "{" s' =>
          match skip_ws s' with
          | String "}" r => Some (JDict [], r)
          | s1 =>
              match parse_members (parse_value fuel') fuel' s1 with
              | Some (kvs, r) => Some (JDict (dict_of_pairs kvs), r)
              | None => None
              end
          end
      | _ =>
          match parse_number s with
          | Some (n, r) => Some (JNum n, r)
          | None => None
          end
      end
  end.

(** [json.loads(s)]: white space, one value, white space, the end. *)
Definition loads (s : string) : option json :=
  match parse_value (String.length s) (skip_ws s) with
  | Some (v, r) =>
      match skip_ws r with
      | EmptyString => Some v
      | _ => None
      end
  | None => None
  end.

End Json.


(* ===================================================================== *)
(** * Exceptions, events and the two monads *)
(* ===================================================================== *)

(** The classes of [requests.exceptions] the program names besides
    [HTTPError], with [ConnectTimeout], which is both a [ConnectionError]
    and a [Timeout].  [RequestException] stands for every other subclass of
    the base class, [JSONDecodeError] among them. *)
Inductive requests_exn : Type :=
| ConnectionError
| ConnectTimeout
| Timeout
| RequestException.

Definition is_ConnectionError (c : requests_exn) : bool :=
  match c with ConnectionError | ConnectTimeout => true | _ => false end.

Definition is_Timeout (c : requests_exn) : bool :=
  match c with Timeout | ConnectTimeout => true | _ => false end.

(** The exceptions of a run; [msg] is [str(e)]. *)
Inductive py_exn : Type :=
| AttributeError
| TypeError
| UnboundLocalError
| SystemExit (code : Z)
| HTTPError (msg : string)
| RequestsError (cls : requests_exn) (msg : string).

Inductive outcome (A : Type) : Type :=
| Ret (a : A)
| Raise (e : py_exn).
Arguments Ret {A} a.
Arguments Raise {A} e.

#[export] Instance Monad_outcome : Monad outcome :=
  {| ret := fun _ a => Ret a;
     bind := fun _ _ c k => match c with Ret a => k a | Raise e => Raise e end |}.

(** What the process does that can be observed from outside. *)
Inductive event : Type :=
| Print (text : string)
| HttpGet (url : string) (auth : string * string)
          (headers : list (string * string)).

(** A computation: the events it performed, then its value or the
    exception that ended it. *)
Definition io (A : Type) : Type := (list event * outcome A)%type.

#[export] Instance Monad_io : Monad io :=
  {| ret := fun _ a => ([], Ret a);
     bind := fun _ _ c k =>
       match c with
       | (t, Ret a) => let (t', r) := k a in ((t ++ t')%list, r)
       | (t, Raise e) => (t, Raise e)
       end |}.

Definition lift {A : Type} (c : outcome A) : io A := ([], c).

Definition print (text : string) : io unit := ([Print text], Ret tt).

(** [sys.exit(code)] *)
Definition sys_exit {A : Type} (code : Z) : io A := ([], Raise (SystemExit code)).

(** [for x in xs: body(x)] *)
Fixpoint for_each {A : Type} (xs : list A) (body : A -> io unit) : io unit :=
  match xs with
  | [] => ret tt
  | x :: xs' => body x ;; for_each xs' body
  end.

(** [[f(x) for x in xs]], stopping at the first exception. *)
Fixpoint map_outcome {A B : Type} (f : A -> outcome B) (xs : list A)
  : outcome (list B) :=
  match xs with
  | [] => ret []
  | x :: xs' => y <- f x ;; ys <- map_outcome f xs' ;; ret (y :: ys)
  end.

(** The printed calls of a trace, in order. *)
Fixpoint printed (t : list event) : list string :=
  match t with
  | [] => []
  | Print s :: t' => s :: printed t'
  | HttpGet _ _ _ :: t' => printed t'
  end.

(** The requests of a trace, in order. *)
Fixpoint requested (t : list event) : list string :=
  match t with
  | [] => []
  | Print _ :: t' => requested t'
  | HttpGet url _ _ :: t' => url :: requested t'
  end.

(** What [print] wrote to standard output: each text and a line break. *)
Fixpoint stdout (t : list event) : string :=
  match t with
  | [] => EmptyString
  | Print s :: t' => s ++ String "010" (stdout t')
  | HttpGet _ _ _ :: t' => stdout t'
  end.

(** The exit status of the interpreter: 0 at a normal end, the code of
    [sys.exit], 1 after any other exception. *)
Definition exit_status {A : Type} (c : io A) : Z :=
  match snd c with
  | Ret _ => 0
  | Raise (SystemExit code) => code
  | Raise _ => 1
  end.

(* ===================================================================== *)
(** * Operations on Python objects *)
(* ===================================================================== *)

Module Py.

(** [obj.get(key, default)]: only a dict has the method. *)
Definition get (obj : json) (key : string) (default : json) : outcome json :=
  match obj with
  | JDict d =>
      Ret (match dict_get key d with Some v => v | None => default end)
  | _ => Raise AttributeError
  end.

(** [len(obj)] *)
Definition len (obj : json) : outcome nat :=
  match obj with
  | JStr s => Ret (String.length s)
  | JList l => Ret (List.length l)
  | JDict d => Ret (List.length d)
  | _ => Raise TypeError
  end.

(** The items [for x in obj] goes through: the items of a list, the keys
    of a dict, the characters of a string. *)
Definition iter (obj : json) : outcome (list json) :=
  match obj with
  | JList l => Ret l
  | JDict d => Ret (map (fun kv => JStr (fst kv)) d)
  | JStr s =>
      Ret (map (fun c => JStr (String c EmptyString)) (list_ascii_of_string s))
  | _ => Raise TypeError
  end.

(** [obj[:n] + "..."]: defined on a string; a list cannot be added to a
    string and the other objects cannot be sliced. *)
Definition slice_add (obj : json) (n : nat) (suffix : string) : outcome json :=
  match obj with
  | JStr s => Ret (JStr (Str.take n s ++ suffix))
  | _ => Raise TypeError
  end.

(** The integer a [bool] or an [int] stands for. *)
Definition as_int (v : json) : option Z :=
  match v with
  | JBool b => Some (if b then 1 else 0)%Z
  | JNum n => Some n
  | _ => None
  end.

(** [a == b] *)
Fixpoint eq (a b : json) : bool :=
  match a, b with
  | JNull, JNull => true
  | JBool x, JBool y => Bool.eqb x y
  | JBool x, JNum n => ((if x then 1 else 0) =? n)%Z
  | JNum n, JBool x => (n =? (if x then 1 else 0))%Z
  | JNum n, JNum m => (n =? m)%Z
  | JStr s, JStr t => String.eqb s t
  | JList l, JList m =>
      (fix items (l m : list json) : bool :=
         match l, m with
         | [], [] => true
         | x :: l', y :: m' => eq x y && items l' m'
         | _, _ => false
         end) l m
  | JDict d, JDict e =>
      (List.length d =? List.length e)%nat
      && forallb (fun kv =>
                    match dict_get (fst kv) e with
                    | Some w => eq (snd kv) w
                    | None => false
                    end) d
  | _, _ => false
  end.

(** [a < b]: numbers by value, strings and lists lexicographically, a
    [TypeError] for every other pair. *)
Fixpoint lt (a b : json) : outcome bool :=
  match as_int a, as_int b with
  | Some x, Some y => Ret (x <? y)%Z
  | _, _ =>
      match a, b with
      | JStr s, JStr t => Ret (String.ltb s t)
      | JList l, JList m =>
          (fix items (l m : list json) : outcome bool :=
             match l, m with
             | [], [] => Ret false
             | [], _ :: _ => Ret true
             | _ :: _, [] => Ret false
             | x :: l', y :: m' => if eq x y then items l' m' else lt x y
             end) l m
      | _, _ => Raise TypeError
      end
  end.

(** Is the code point printable, as [repr] of a string decides it? *)
Definition printable (c : ascii) : bool :=
  let n := N_of_ascii c in
  (32 <=? n)%N && negb ((127 <=? n)%N && (n <=? 160)%N) && negb (n =? 173)%N.

(** [repr(s)] for a string: single quotes unless the text holds one and no
    double quote. *)
Definition repr_str (s : string) : string :=
  let q : ascii :=
    (if Str.mem "'" s && negb (Str.mem "034" s) then "034" else "'")%char in
  let esc (c : ascii) : string :=
    let n := N_of_ascii c in
    if Ascii.eqb c q || (n =? 92)%N then String "\" (String c EmptyString)
    else if (n =? 9)%N then "\t"
    else if (n =? 10)%N then "\n"
    else if (n =? 13)%N then "\r"
    else if printable c then String c EmptyString
    else "\x" ++ Str.hex2 c in
  String q (String.concat EmptyString (map esc (list_ascii_of_string s))
              ++ String q EmptyString).

(** [repr(obj)] *)
Fixpoint repr (v : json) : string :=
  match v with
  | JNull => "None"
  | JBool true => "True"
  | JBool false => "False"
  | JNum n => Str.of_Z n
  | JStr s => repr_str s
  | JList l => "[" ++ String.concat ", " (map repr l) ++ "]"
  | JDict d =>
      "{" ++ String.concat ", "
               (map (fun kv => repr_str (fst kv) ++ ": " ++ repr (snd kv)) d)
        ++ "}"
  end.

(** [str(obj)], which is also [f"{obj}"]. *)
Definition str (v : json) : string :=
  match v with
  | JStr s => s
  | _ => repr v
  end.

(** [f"{obj:<w}"]: text is padded; an [int], and a [bool] as the [int] it
    is, is written in decimal and padded; the other objects refuse a
    format specification. *)
Definition format_left (w : nat) (v : json) : outcome string :=
  match v with
  | JStr s => Ret (Str.ljust w s)
  | JNum n => Ret (Str.ljust w (Str.of_Z n))
  | JBool b => Ret (Str.ljust w (if b then "1" else "0"))
  | _ => Raise TypeError
  end.

(** Insertion of a keyed item before the first item whose key is not
    smaller: equal keys keep their order. *)
Fixpoint insert_keyed (kx : json * json) (l : list (json * json))
  : outcome (list (json * json)) :=
  match l with
  | [] => ret [kx]
  | ky :: l' =>
      smaller <- lt (fst ky) (fst kx) ;;
      if smaller : bool
      then (r <- insert_keyed kx l' ;; ret (ky :: r))
      else ret (kx :: ky :: l')
  end.

Fixpoint sort_keyed (l : list (json * json)) : outcome (list (json * json)) :=
  match l with
  | [] => ret []
  | kx :: l' => s <- sort_keyed l' ;; insert_keyed kx s
  end.

(** [sorted(iterable, key=key)]: the keys of all items are computed first;
    the sort is stable and compares keys with [<] only; an exception of the
    key function or of a comparison ends it. *)
Definition sorted (key : json -> outcome json) (iterable : json)
  : outcome (list json) :=
  items <- iter iterable ;;
  keyed <- map_outcome (fun v => k <- key v ;; ret (k, v)) items ;;
  s <- sort_keyed keyed ;;
  ret (map snd s).

End Py.

(* ===================================================================== *)
(** * The HTTP layer: [requests] and [urllib.parse.quote] *)
(* ===================================================================== *)

(** What [response.json()] finds in the body. *)
Inductive body : Type :=
| Document (v : json)
| NotJson (error : string).

(** A response: its status line, its body, and [response.url], the URL
    the response came from as [requests] holds it (the URL of the request
    as [requests] prepared it, or that of the last redirect). *)
Record response : Type := mkResponse {
  status_code : Z;
  reason : string;
  content : body;
  final_url : string
}.

(** What the network does with one GET request: a response of any status,
    or an exception of [requests.get]. *)
Inductive reply : Type :=
| Answer (r : response)
| Failure (cls : requests_exn) (msg : string).

Definition network : Type :=
  string -> string * string -> list (string * string) -> reply.

(** [requests.get(url, auth=HTTPBasicAuth(username, api_token), headers=h)] *)
Definition requests_get (net : network) (url : string)
  (auth : string * string) (headers : list (string * string)) : io response :=
  ([HttpGet url auth headers],
   match net url auth headers with
   | Answer r => Ret r
   | Failure cls msg => Raise (RequestsError cls msg)
   end).

(** [response.raise_for_status()]: an [HTTPError] for the statuses 400 to
    599 and for no other; its text names the status, the reason and
    [response.url]. *)
Definition raise_for_status (r : response) : outcome unit :=
  let s := status_code r in
  if (400 <=? s)%Z && (s <? 500)%Z then
    Raise (HTTPError (Str.of_Z s ++ " Client Error: " ++ reason r
                        ++ " for url: " ++ final_url r))
  else if (500 <=? s)%Z && (s <? 600)%Z then
    Raise (HTTPError (Str.of_Z s ++ " Server Error: " ++ reason r
                        ++ " for url: " ++ final_url r))
  else Ret tt.

(** [response.json()]: a body that is not JSON raises the
    [JSONDecodeError] of [requests], a [RequestException] from version
    2.27 of the library on. *)
Definition response_json (r : response) : outcome json :=
  match content r with
  | Document v => Ret v
  | NotJson error => Raise (RequestsError RequestException error)
  end.

(** [try: response = get; body(response)  except ...], where the handlers
    see the variable [response] if the request bound it. *)
Definition try_request {A : Type} (get : io response)
  (body : response -> io A) (except : option response -> py_exn -> io A)
  : io A :=
  match get with
  | (t, Raise e) => let (t', r) := except None e in ((t ++ t')%list, r)
  | (t, Ret resp) =>
      match body resp with
      | (t', Ret a) => ((t ++ t')%list, Ret a)
      | (t', Raise e) =>
          let (t'', r) := except (Some resp) e in ((t ++ t' ++ t'')%list, r)
      end
  end.

(** [response.status_code] inside a handler. *)
Definition bound_status (resp : option response) : io Z :=
  match resp with
  | Some r => ret (status_code r)
  | None => ([], Raise UnboundLocalError)
  end.

Module Url.

(** The characters [quote] leaves as they are: letters, digits, [_.-~] and
    the default [safe='/']. *)
Definition always_safe (n : N) : bool :=
  ((65 <=? n) && (n <=? 90) || (97 <=? n) && (n <=? 122)
   || (48 <=? n) && (n <=? 57)
   || (n =? 95) || (n =? 46) || (n =? 45) || (n =? 126) || (n =? 47))%N.

(** The UTF-8 bytes of a code point below 256. *)
Definition utf8 (c : ascii) : list N :=
  let n := N_of_ascii c in
  if (n <? 128)%N then [n] else [192 + n / 64; 128 + n mod 64]%N.

Definition quote_byte (n : N) : string :=
  if always_safe n then String (ascii_of_N n) EmptyString
  else String "%" (String (Str.hex_digit_upper (n / 16))
                     (String (Str.hex_digit_upper (n mod 16)) EmptyString)).

(** [urllib.parse.quote(s)] *)
Fixpoint quote (s : string) : string :=
  match s with
  | EmptyString => EmptyString
  | String c s' =>
      String.concat EmptyString (map quote_byte (utf8 c)) ++ quote s'
  end.

End Url.

Definition accept_json : list (string * string) :=
  [("Accept", "application/json")].

(** The [if jira_url.endswith('/'): jira_url = jira_url[:-1]] of both
    fetch functions. *)
Definition strip_slash (jira_url : string) : string :=
  if Str.endswith_slash jira_url then Str.drop_last jira_url else jira_url.

Definition versions_endpoint (jira_url project_key : string) : string :=
  strip_slash jira_url ++ "/rest/api/2/project/" ++ project_key ++ "/versions".

(** The [except] clauses of [get_project_versions], first match first. *)
Definition versions_except (project_key : string) (resp : option response)
  (e : py_exn) : io json :=
  match e with
  | HTTPError msg =>
      print ("HTTP Error: " ++ msg) ;;
      status <- bound_status resp ;;
      (if (status =? 401)%Z then
         print "Authentication failed. Please check your username and API token."
       else if (status =? 403)%Z then
         print "You don't have permission to access this resource."
       else if (status =? 404)%Z then
         print ("Project '" ++ project_key ++ "' not found.")
       else ret tt) ;;
      sys_exit 1
  | RequestsError cls msg =>
      if is_ConnectionError cls then
        print "Connection Error: Failed to connect to the Jira server." ;;
        sys_exit 1
      else if is_Timeout cls then
        print "Timeout Error: The request timed out." ;;
        sys_exit 1
      else
        print ("Error: " ++ msg) ;;
        sys_exit 1
  | _ => ([], Raise e)
  end.

Definition get_project_versions (net : network)
  (jira_url project_key username api_token : string) : io json :=
  let api_endpoint := versions_endpoint jira_url project_key in
  try_request
    (requests_get net api_endpoint (username, api_token) accept_json)
    (fun resp =>
       lift (raise_for_status resp) ;;
       lift (response_json resp))
    (versions_except project_key).

Definition jql_query (project_key version_id : string) : string :=
  "project = " ++ project_key ++ " AND fixVersion = " ++ version_id
    ++ " ORDER BY key ASC".

Definition issues_endpoint (jira_url project_key version_id : string)
  : string :=
  strip_slash jira_url ++ "/rest/api/2/search?jql="
    ++ Url.quote (jql_query project_key version_id) ++ "&maxResults=1000".

(** The [except] clauses of [get_issues_for_version]. *)
Definition issues_except (resp : option response) (e : py_exn) : io json :=
  match e with
  | HTTPError msg =>
      print ("HTTP Error: " ++ msg) ;;
      status <- bound_status resp ;;
      (if (status =? 401)%Z then
         print "Authentication failed. Please check your username and API token."
       else if (status =? 403)%Z then
         print "You don't have permission to access this resource."
       else if (status =? 400)%Z then
         print "Bad request: Invalid JQL query or parameters."
       else ret tt) ;;
      sys_exit 1
  | RequestsError cls msg =>
      if is_ConnectionError cls then
        print "Connection Error: Failed to connect to the Jira server." ;;
        sys_exit 1
      else if is_Timeout cls then
        print "Timeout Error: The request timed out." ;;
        sys_exit 1
      else
        print ("Error: " ++ msg) ;;
        sys_exit 1
  | _ => ([], Raise e)
  end.

Definition get_issues_for_version (net : network)
  (jira_url project_key version_id username api_token : string) : io json :=
  let api_endpoint := issues_endpoint jira_url project_key version_id in
  try_request
    (requests_get net api_endpoint (username, api_token) accept_json)
    (fun resp =>
       lift (raise_for_status resp) ;;
       parsed <- lift (response_json resp) ;;
       lift (Py.get parsed "issues" (JList [])))
    issues_except.

(* ===================================================================== *)
(** * The formatter *)
(* ===================================================================== *)

(** [if len(summary) > 70: summary = summary[:67] + "..."] *)
Definition truncate_summary (summary : json) : outcome json :=
  n <- Py.len summary ;;
  if (70 <? n)%nat then Py.slice_add summary 67 "..." else ret summary.

(** The body of the loop of [display_issues]: the text of one row. *)
Definition issue_row (issue : json) : outcome string :=
  key <- Py.get issue "key" (JStr "N/A") ;;
  fields <- Py.get issue "fields" (JDict []) ;;
  issuetype <- Py.get fields "issuetype" (JDict []) ;;
  issue_type <- Py.get issuetype "name" (JStr "N/A") ;;
  fields <- Py.get issue "fields" (JDict []) ;;
  status <- Py.get fields "status" (JDict []) ;;
  status <- Py.get status "name" (JStr "N/A") ;;
  fields <- Py.get issue "fields" (JDict []) ;;
  priority <- Py.get fields "priority" (JDict []) ;;
  priority <- Py.get priority "name" (JStr "N/A") ;;
  fields <- Py.get issue "fields" (JDict []) ;;
  summary <- Py.get fields "summary" (JStr "N/A") ;;
  summary <- truncate_summary summary ;;
  c1 <- Py.format_left 15 key ;;
  c2 <- Py.format_left 15 issue_type ;;
  c3 <- Py.format_left 15 status ;;
  c4 <- Py.format_left 10 priority ;;
  ret (c1 ++ " " ++ c2 ++ " " ++ c3 ++ " " ++ c4 ++ " " ++ Py.str summary).

Definition issues_header : string :=
  Str.ljust 15 "Key" ++ " " ++ Str.ljust 15 "Type" ++ " "
    ++ Str.ljust 15 "Status" ++ " " ++ Str.ljust 10 "Priority" ++ " "
    ++ "Summary".

Definition display_issues (issues : json) (output_format : string) : io unit :=
  if String.eqb output_format "json" then
    print (Json.dumps 2 issues)
  else if negb (truthy issues) then
    print "No issues found for this release."
  else
    n <- lift (Py.len issues) ;;
    print ("Found " ++ Str.of_nat n ++ " issues:") ;;
    print (Str.replicate 120 "-") ;;
    print issues_header ;;
    print (Str.replicate 120 "-") ;;
    items <- lift (Py.iter issues) ;;
    for_each items (fun issue => row <- lift (issue_row issue) ;; print row).

(** The sort key of [display_versions]:
    [v.get("releaseDate", "9999-99-99") if v.get("releaseDate")
     else "9999-99-99"]. *)
Definition release_key (v : json) : outcome json :=
  date <- Py.get v "releaseDate" JNull ;;
  if truthy date then Py.get v "releaseDate" (JStr "9999-99-99")
  else ret (JStr "9999-99-99").

(** The body of the loop of [display_versions]: the text of one row. *)
Definition version_row (version : json) : outcome string :=
  version_id <- Py.get version "id" (JStr "N/A") ;;
  name <- Py.get version "name" (JStr "N/A") ;;
  flag <- Py.get version "released" (JBool false) ;;
  let released := if truthy flag then "Yes" else "No" in
  release_date <- Py.get version "releaseDate" (JStr "N/A") ;;
  description <- Py.get version "description" (JStr EmptyString) ;;
  c1 <- Py.format_left 10 version_id ;;
  c2 <- Py.format_left 20 name ;;
  c4 <- Py.format_left 12 release_date ;;
  ret (c1 ++ " " ++ c2 ++ " " ++ Str.ljust 10 released ++ " " ++ c4 ++ " "
         ++ Py.str description).

Definition versions_header : string :=
  Str.ljust 10 "ID" ++ " " ++ Str.ljust 20 "Name" ++ " "
    ++ Str.ljust 10 "Released" ++ " " ++ Str.ljust 12 "Release Date" ++ " "
    ++ "Description".

Definition display_versions (versions : json) (output_format : string)
  : io unit :=
  if String.eqb output_format "json" then
    print (Json.dumps 2 versions)
  else if negb (truthy versions) then
    print "No releases found for this project."
  else
    sorted_versions <- lift (Py.sorted release_key versions) ;;
    n <- lift (Py.len versions) ;;
    print ("Found " ++ Str.of_nat n ++ " releases:") ;;
    print (Str.replicate 80 "-") ;;
    print versions_header ;;
    print (Str.replicate 80 "-") ;;
    for_each sorted_versions
      (fun version => row <- lift (version_row version) ;; print row).

(* ===================================================================== *)
(** * The command line driver *)
(* ===================================================================== *)

(** The namespace [parser.parse_args()] returns. *)
Record args : Type := mkArgs {
  project_key : string;
  url : string;
  user : string;
  token : string;
  format : string;
  release_id : option string;
  list_issues : bool
}.

(** The truth value of [args.release_id]: [None] and the empty string are
    false. *)
Definition release_id_given (a : args) : bool :=
  match release_id a with
  | None => false
  | Some s => negb (String.eqb s EmptyString)
  end.

(** [main] from the namespace on (lines 208 to 215): what it does once
    [parser.parse_args()] has returned. *)
Definition main (net : network) (a : args) : io unit :=
  if release_id_given a && list_issues a then
    issues <- get_issues_for_version net (url a) (project_key a)
                (match release_id a with Some s => s | None => EmptyString end)
                (user a) (token a) ;;
    display_issues issues (format a)
  else
    versions <- get_project_versions net (url a) (project_key a)
                  (user a) (token a) ;;
    display_versions versions (format a).

(** What [parser.parse_args()] does with the command line: it returns
    the namespace; or it writes a usage message to standard error and
    leaves with [sys.exit(2)]; or, for [-h] and [--help], it prints the
    help and leaves with [sys.exit(0)].  [help] is the text of the help
    without its last line break. *)
Inductive parse_outcome : Type :=
| Parsed (a : args)
| UsageError
| HelpRequested (help : string).

(** [main] from its first line. *)
Definition program (net : network) (p : parse_outcome) : io unit :=
  match p with
  | Parsed a => main net a
  | UsageError => sys_exit 2
  | HelpRequested help => print help ;; sys_exit 0
  end.


(* ===================================================================== *)
(** * The vocabulary of the specification *)
(* ===================================================================== *)

(** A value as the decoder builds it: no dict holds a key twice. *)
Fixpoint unique_strings (l : list string) : bool :=
  match l with
  | [] => true
  | k :: l' => negb (existsb (String.eqb k) l') && unique_strings l'
  end.

Fixpoint unique_keys (v : json) : bool :=
  match v with
  | JList l => forallb unique_keys l
  | JDict d =>
      unique_strings (map fst d) && forallb (fun kv => unique_keys (snd kv)) d
  | _ => true
  end.

(** The number of values inside a value, itself included. *)
Fixpoint json_size (v : json) : nat :=
  match v with
  | JList l => S (list_sum (map json_size l))
  | JDict d => S (list_sum (map (fun kv => json_size (snd kv)) d))
  | _ => 1
  end.

(** The text of an optional field, or a placeholder. *)
Definition text_or (placeholder : string) (field : option json) : string :=
  match field with
  | Some (JStr s) => s
  | _ => placeholder
  end.

(** A field of a nested object, when the object is there. *)
Definition sub (key : string) (obj : option json) : option json :=
  match obj with
  | Some (JDict d) => dict_get key d
  | _ => None
  end.

(** A field that is absent or holds text. *)
Definition text_or_absent (field : option json) : bool :=
  match field with
  | None | Some (JStr _) => true
  | Some _ => false
  end.

(** A nested object that is absent or is an object whose name is absent
    or text. *)
Definition named_or_absent (field : option json) : bool :=
  match field with
  | None => true
  | Some (JDict d) => text_or_absent (dict_get "name" d)
  | Some _ => false
  end.

(** A version as the data model has it: an object whose [id], [name] and
    [releaseDate] are text when they are present. *)
Definition version_ok (v : json) : bool :=
  match v with
  | JDict d =>
      text_or_absent (dict_get "id" d) && text_or_absent (dict_get "name" d)
      && text_or_absent (dict_get "releaseDate" d)
  | _ => false
  end.

(** An issue as the data model has it: every sub-field is absent or of
    its type. *)
Definition issue_ok (v : json) : bool :=
  match v with
  | JDict d =>
      text_or_absent (dict_get "key" d)
      && match dict_get "fields" d with
         | None => true
         | Some (JDict f) =>
             named_or_absent (dict_get "issuetype" f)
             && named_or_absent (dict_get "status" f)
             && named_or_absent (dict_get "priority" f)
             && text_or_absent (dict_get "summary" f)
         | Some _ => false
         end
  | _ => false
  end.

(** The date a version sorts as: its release date, [9999-99-99] when the
    date is missing or empty. *)
Definition effective_date (v : json) : string :=
  match v with
  | JDict d =>
      match dict_get "releaseDate" d with
      | Some (JStr s) => if String.eqb s EmptyString then "9999-99-99" else s
      | _ => "9999-99-99"
      end
  | _ => "9999-99-99"
  end.

(** A version without a release date, or with the empty one. *)
Definition undated (v : json) : bool :=
  match v with
  | JDict d =>
      match dict_get "releaseDate" d with
      | None => true
      | Some (JStr s) => String.eqb s EmptyString
      | Some _ => false
      end
  | _ => false
  end.

Definition is_digit (c : ascii) : bool :=
  (48 <=? N_of_ascii c)%N && (N_of_ascii c <=? 57)%N.

(** A calendar date written [YYYY-MM-DD], month 01 to 12, day 01 to 31. *)
Definition iso_date (s : string) : bool :=
  match s with
  | String y1 (String y2 (String y3 (String y4 (String h1
      (String u1 (String u2 (String h2
        (String t1 (String t2 EmptyString))))))))) =>
      is_digit y1 && is_digit y2 && is_digit y3 && is_digit y4
      && Ascii.eqb h1 "-"
      && is_digit u1 && is_digit u2
      && Ascii.eqb h2 "-"
      && is_digit t1 && is_digit t2
      && (let m := (10 * (N_of_ascii u1 - 48) + (N_of_ascii u2 - 48))%N in
          (1 <=? m)%N && (m <=? 12)%N)
      && (let d := (10 * (N_of_ascii t1 - 48) + (N_of_ascii t2 - 48))%N in
          (1 <=? d)%N && (d <=? 31)%N)
  | _ => false
  end.

(** A version whose release date is a calendar date. *)
Definition dated (v : json) : bool :=
  match v with
  | JDict d =>
      match dict_get "releaseDate" d with
      | Some (JStr s) => iso_date s
      | _ => false
      end
  | _ => false
  end.

(** A version paired with the key it sorts by. *)
Definition keyed (key : json -> string) (v : json) : json * json :=
  (JStr (key v), v).

(** Ascending order by a text key. *)
Definition key_le (key : json -> string) (a b : json) : Prop :=
  String.leb (key a) (key b) = true.

(** The items of one key. *)
Definition has_key (key : json -> string) (k : string) (v : json) : bool :=
  String.eqb (key v) k.

(** The order of the table: by effective date, ascending. *)
Definition date_le : json -> json -> Prop := key_le effective_date.

(** The versions of one date, or the versions without a date. *)
Definition of_date : string -> json -> bool := has_key effective_date.

(** The row of a version, column by column, as the specification words
    it. *)
Definition version_line (v : json) : string :=
  match v with
  | JDict d =>
      Str.ljust 10 (text_or "N/A" (dict_get "id" d)) ++ " "
        ++ Str.ljust 20 (text_or "N/A" (dict_get "name" d)) ++ " "
        ++ Str.ljust 10 (match dict_get "released" d with
                         | Some flag => if truthy flag then "Yes" else "No"
                         | None => "No"
                         end) ++ " "
        ++ Str.ljust 12 (text_or "N/A" (dict_get "releaseDate" d)) ++ " "
        ++ match dict_get "description" d with
           | Some text => Py.str text
           | None => EmptyString
           end
  | _ => EmptyString
  end.

(** The summary as a row shows it. *)
Definition shown_summary (s : string) : string :=
  if (70 <? String.length s)%nat then Str.take 67 s ++ "..." else s.

(** The four fixed-width columns of the row of an issue, with the space
    that follows each. *)
Definition issue_columns (v : json) : string :=
  match v with
  | JDict d =>
      let fields := dict_get "fields" d in
      Str.ljust 15 (text_or "N/A" (dict_get "key" d)) ++ " "
        ++ Str.ljust 15 (text_or "N/A" (sub "name" (sub "issuetype" fields)))
        ++ " "
        ++ Str.ljust 15 (text_or "N/A" (sub "name" (sub "status" fields)))
        ++ " "
        ++ Str.ljust 10 (text_or "N/A" (sub "name" (sub "priority" fields)))
        ++ " "
  | _ => EmptyString
  end.

(** The summary of an issue, when it has one. *)
Definition summary_of (v : json) : option json :=
  match v with
  | JDict d => sub "summary" (dict_get "fields" d)
  | _ => None
  end.

(** The row of an issue as the specification words it. *)
Definition issue_line (v : json) : string :=
  issue_columns v ++ shown_summary (text_or "N/A" (summary_of v)).

(** The release id [main] passes on. *)
Definition passed_release_id (a : args) : string :=
  match release_id a with Some s => s | None => EmptyString end.

(** The endpoint [main] sends its one request to. *)
Definition request_url (a : args) : string :=
  match release_id a with
  | Some rid =>
      if negb (String.eqb rid EmptyString) && list_issues a
      then issues_endpoint (url a) (project_key a) rid
      else versions_endpoint (url a) (project_key a)
  | None => versions_endpoint (url a) (project_key a)
  end.

(** The replies the HTTP layer classifies as errors: an exception of the
    request, a status from 400 to 599, a body that is not JSON. *)
Definition is_error (r : reply) : bool :=
  match r with
  | Failure _ _ => true
  | Answer resp =>
      ((400 <=? status_code resp)%Z && (status_code resp <? 600)%Z)
      || match content resp with NotJson _ => true | Document _ => false end
  end.

(** A computation that sends no request. *)
Definition quiet {A : Type} (c : io A) : Prop := requested (fst c) = [].

(** The replies that end in an [except] clause whatever the version of
    [requests]: an exception of the request, a status from 400 to 599. *)
Definition http_error (r : reply) : bool :=
  match r with
  | Failure _ _ => true
  | Answer resp =>
      (400 <=? status_code resp)%Z && (status_code resp <? 600)%Z
  end.

(** Is the text empty, or does it start with a comma or a line break? *)
Definition delimited (s : string) : bool :=
  match s with
  | EmptyString => true
  | String c _ => Ascii.eqb c "," || Ascii.eqb c "010"
  end.

(* ===================================================================== *)
(** * Further vocabulary *)
(* ===================================================================== *)

(** Is the value a JSON object? *)
Definition is_object (v : json) : bool :=
  match v with JDict _ => true | _ => false end.

(** Is the value a JSON array? *)
Definition is_array (v : json) : bool :=
  match v with JList _ => true | _ => false end.

(** Is the list in ascending order of a text key, pair by pair? *)
Fixpoint ascending (key : json -> string) (l : list json) : bool :=
  match l with
  | x :: (y :: _) as l' => String.leb (key x) (key y) && ascending key l'
  | _ => true
  end.

(** A field that is present and is not an object. *)
Definition not_an_object (field : option json) : bool :=
  match field with
  | Some v => negb (is_object v)
  | None => false
  end.

(** The characters [quote] can produce: the unreserved ones, the slash
    and the percent sign. *)
Definition url_safe (c : ascii) : bool :=
  Url.always_safe (N_of_ascii c) || Ascii.eqb c "%".

(** Printable ASCII, or a line break. *)
Definition plain_ascii (c : ascii) : bool :=
  ((32 <=? N_of_ascii c)%N && (N_of_ascii c <=? 126)%N)
  || (N_of_ascii c =? 10)%N.

(** Do all characters of the text satisfy the test? *)
Fixpoint all_chars (p : ascii -> bool) (s : string) : bool :=
  match s with
  | EmptyString => true
  | String c s' => p c && all_chars p s'
  end.

(** An outcome that is a value, an [AttributeError] or a [TypeError]. *)
Definition benign {A : Type} (c : outcome A) : Prop :=
  match c with
  | Ret _ => True
  | Raise e => e = AttributeError \/ e = TypeError
  end.

(* ===================================================================== *)
(** * Sample inputs *)
(* ===================================================================== *)

Module Sample.

Definition base : string := "https://jira.example.com".

Definition versions_url : string :=
  "https://jira.example.com/rest/api/2/project/PROJ/versions".

Definition search_url : string :=
  "https://jira.example.com/rest/api/2/search?jql=project%20%3D%20PROJ%20AND%20fixVersion%20%3D%2010001%20ORDER%20BY%20key%20ASC&maxResults=1000".

Definition no_versions : response :=
  mkResponse 200 "OK" (Document (JList [])) versions_url.

Definition multiple_choices : response :=
  mkResponse 300 "Multiple Choices" (Document (JList [])) versions_url.

Definition not_found : response :=
  mkResponse 404 "Not Found" (NotJson "Expecting value") versions_url.

Definition search_not_found : response :=
  mkResponse 404 "Not Found" (NotJson "Expecting value") search_url.

Definition found (issues : json) : response :=
  mkResponse 200 "OK"
    (Document (JDict [("total", JNum 1); ("issues", issues)])) search_url.

Definition always (r : response) : network := fun _ _ _ => Answer r.

Definition list_releases : args :=
  mkArgs "PROJ" base "user" "secret" "text" None false.

Definition empty_release_id : args :=
  mkArgs "PROJ" base "user" "secret" "text" (Some EmptyString) true.

Definition issues_of_release : args :=
  mkArgs "PROJ" base "user" "secret" "text" (Some "10001") true.

(** An issue without the [priority] field. *)
Definition no_priority : json :=
  JDict [("key", JStr "PROJ-1");
         ("fields", JDict [("issuetype", JDict [("name", JStr "Bug")]);
                           ("status", JDict [("name", JStr "Done")]);
                           ("summary", JStr "Crash on start")])].

(** An issue whose [priority] field is [null]. *)
Definition null_priority : json :=
  JDict [("key", JStr "PROJ-2");
         ("fields", JDict [("priority", JNull);
                           ("summary", JStr "Unset priority")])].

(** An issue with a summary of 75 characters. *)
Definition long_summary : json :=
  JDict [("key", JStr "PROJ-3");
         ("fields", JDict [("summary", JStr (Str.replicate 75 "x"))])].

Definition released_version : json :=
  JDict [("id", JStr "10000"); ("name", JStr "1.0"); ("released", JBool true);
         ("releaseDate", JStr "2024-05-01");
         ("description", JStr "First release")].

Definition early_version : json :=
  JDict [("id", JStr "10002"); ("name", JStr "0.9");
         ("releaseDate", JStr "2023-01-15")].

Definition planned_version : json :=
  JDict [("id", JStr "10001"); ("name", JStr "2.0"); ("released", JBool false)].

Definition undated_version : json :=
  JDict [("id", JStr "10003"); ("name", JStr "3.0");
         ("releaseDate", JStr EmptyString); ("projectId", JNum 10)].

End Sample.

(* ===================================================================== *)
(** * Strings, traces: basic facts *)
(* ===================================================================== *)

Lemma append_assoc (a b c : string) : (a ++ b) ++ c = a ++ (b ++ c).
Proof. induction a as [|x a IH]; simpl; [reflexivity | now rewrite IH]. Qed.

Lemma append_nil_r (a : string) : a ++ EmptyString = a.
Proof. induction a as [|x a IH]; simpl; [reflexivity | now rewrite IH]. Qed.

Lemma length_append (a b : string) :
  String.length (a ++ b) = String.length a + String.length b.
Proof. induction a as [|x a IH]; simpl; [reflexivity | now rewrite IH]. Qed.

Lemma append_inv_head (a b c : string) : a ++ b = a ++ c -> b = c.
Proof.
  induction a as [|x a IH]; simpl; intros H; [exact H|].
  injection H as H. now apply IH.
Qed.

Lemma length_replicate (n : nat) (c : ascii) :
  String.length (Str.replicate n c) = n.
Proof. induction n as [|n IH]; simpl; [reflexivity | now rewrite IH]. Qed.

Lemma endswith_slash_app (s : string) : Str.endswith_slash (s ++ "/") = true.
Proof.
  induction s as [|c s IH]; [reflexivity|].
  simpl. destruct (s ++ "/") eqn:E; [|exact IH].
  destruct s; discriminate.
Qed.

Lemma drop_last_app (s : string) (c : ascii) :
  Str.drop_last (s ++ String c EmptyString) = s.
Proof.
  induction s as [|x s IH]; [reflexivity|].
  simpl. destruct (s ++ String c EmptyString) eqn:E.
  - destruct s; discriminate.
  - now rewrite IH.
Qed.

Lemma strip_slash_app (s : string) : strip_slash (s ++ "/") = s.
Proof.
  unfold strip_slash. now rewrite endswith_slash_app, drop_last_app.
Qed.

Lemma strip_slash_id (s : string) :
  Str.endswith_slash s = false -> strip_slash s = s.
Proof. unfold strip_slash. now intros ->. Qed.

Lemma requested_prints (ds : list string) : requested (map Print ds) = [].
Proof. induction ds; simpl; auto. Qed.

Lemma printed_prints (ds : list string) : printed (map Print ds) = ds.
Proof. induction ds; simpl; congruence. Qed.


(** The two endpoints differ, whatever the base address. *)
Lemma endpoints_differ (jira_url project_key version_id : string) :
  issues_endpoint jira_url project_key version_id
  <> versions_endpoint jira_url project_key.
Proof.
  unfold issues_endpoint, versions_endpoint. intros H.
  apply append_inv_head in H. discriminate H.
Qed.

(* ===================================================================== *)
(** * The HTTP layer: one request, then a value or exit status 1 *)
(* ===================================================================== *)

Lemma raise_for_status_spec (r : response) :
  if (400 <=? status_code r)%Z && (status_code r <? 600)%Z
  then exists msg, raise_for_status r = Raise (HTTPError msg)
  else raise_for_status r = Ret tt.
Proof.
  unfold raise_for_status.
  destruct (Z.leb_spec 400 (status_code r)), (Z.ltb_spec (status_code r) 500),
    (Z.leb_spec 500 (status_code r)), (Z.ltb_spec (status_code r) 600);
    simpl; try lia; eauto.
Qed.

(** [get_project_versions] sends one request; after an error it prints a
    diagnostic and leaves with [sys.exit(1)], otherwise it prints nothing
    and returns the document. *)
Lemma get_project_versions_run (net : network)
  (jira_url project_key username api_token : string) :
  let endpoint := versions_endpoint jira_url project_key in
  let r := net endpoint (username, api_token) accept_json in
  exists t res,
    get_project_versions net jira_url project_key username api_token
    = (HttpGet endpoint (username, api_token) accept_json :: t, res)
    /\ requested t = []
    /\ (is_error r = true -> printed t <> [] /\ res = Raise (SystemExit 1))
    /\ (is_error r = false ->
        exists resp v, r = Answer resp /\ content resp = Document v
                       /\ t = [] /\ res = Ret v).
Proof.
  intros endpoint r. subst r.
  unfold get_project_versions, try_request, requests_get.
  fold endpoint.
  destruct (net endpoint (username, api_token) accept_json)
    as [resp | cls msg] eqn:Hnet.
  - cbv beta iota. unfold is_error.
    pose proof (raise_for_status_spec resp) as Hs.
    destruct ((400 <=? status_code resp)%Z && (status_code resp <? 600)%Z).
    + destruct Hs as [msg ->]. cbn.
      destruct (status_code resp =? 401)%Z;
        [|destruct (status_code resp =? 403)%Z;
          [|destruct (status_code resp =? 404)%Z]];
        cbn; eexists _, _; (split; [reflexivity|]); cbn;
        (split; [reflexivity|]);
        (split; [intros _; split; [discriminate|reflexivity] | discriminate]).
    + rewrite Hs. unfold response_json.
      destruct (content resp) as [v | err] eqn:Hc; cbn.
      * exists [], (Ret v). repeat split; try discriminate.
        intros _. exists resp, v. auto.
      * eexists _, _. split; [reflexivity|]. cbn. split; [reflexivity|].
        split; [intros _; split; [discriminate|reflexivity] | discriminate].
  - cbn. destruct cls; cbn; eexists _, _; (split; [reflexivity|]); cbn;
      (split; [reflexivity|]);
      (split; [intros _; split; [discriminate|reflexivity] | discriminate]).
Qed.

(** [get_issues_for_version] sends one request; after an error it prints
    a diagnostic and leaves with [sys.exit(1)], otherwise it prints nothing
    and looks [issues] up in the document. *)
Lemma get_issues_for_version_run (net : network)
  (jira_url project_key version_id username api_token : string) :
  let endpoint := issues_endpoint jira_url project_key version_id in
  let r := net endpoint (username, api_token) accept_json in
  exists t res,
    get_issues_for_version net jira_url project_key version_id
      username api_token
    = (HttpGet endpoint (username, api_token) accept_json :: t, res)
    /\ requested t = []
    /\ (is_error r = true -> printed t <> [] /\ res = Raise (SystemExit 1))
    /\ (is_error r = false ->
        exists resp v, r = Answer resp /\ content resp = Document v
                       /\ t = [] /\ res = Py.get v "issues" (JList [])).
Proof.
  intros endpoint r. subst r.
  unfold get_issues_for_version, try_request, requests_get.
  fold endpoint.
  destruct (net endpoint (username, api_token) accept_json)
    as [resp | cls msg] eqn:Hnet.
  - cbv beta iota. unfold is_error.
    pose proof (raise_for_status_spec resp) as Hs.
    destruct ((400 <=? status_code resp)%Z && (status_code resp <? 600)%Z).
    + destruct Hs as [msg ->]. cbn.
      destruct (status_code resp =? 401)%Z;
        [|destruct (status_code resp =? 403)%Z;
          [|destruct (status_code resp =? 400)%Z]];
        cbn; eexists _, _; (split; [reflexivity|]); cbn;
        (split; [reflexivity|]);
        (split; [intros _; split; [discriminate|reflexivity] | discriminate]).
    + rewrite Hs. unfold response_json.
      destruct (content resp) as [v | err] eqn:Hc; cbn.
      * destruct v; cbn; eexists [], _; (split; [reflexivity|]);
          (split; [reflexivity|]); (split; [discriminate|]);
          intros _; eexists resp, _; (split; [reflexivity|]);
          (split; [exact Hc|]); split; reflexivity.
      * eexists _, _. split; [reflexivity|]. cbn. split; [reflexivity|].
        split; [intros _; split; [discriminate|reflexivity] | discriminate].
  - cbn. destruct cls; cbn; eexists _, _; (split; [reflexivity|]); cbn;
      (split; [reflexivity|]);
      (split; [intros _; split; [discriminate|reflexivity] | discriminate]).
Qed.

(* ===================================================================== *)
(** * Computations that only print *)
(* ===================================================================== *)

Lemma requested_app (t t' : list event) :
  requested (t ++ t')%list = (requested t ++ requested t')%list.
Proof.
  induction t as [|e t IH]; simpl; [reflexivity|].
  destruct e; simpl; now rewrite IH.
Qed.

Lemma printed_app (t t' : list event) :
  printed (t ++ t')%list = (printed t ++ printed t')%list.
Proof.
  induction t as [|e t IH]; simpl; [reflexivity|].
  destruct e; simpl; now rewrite IH.
Qed.

Lemma quiet_is_prints (t : list event) :
  requested t = [] -> t = map Print (printed t).
Proof.
  induction t as [|e t IH]; simpl; [reflexivity|].
  destruct e; simpl; [intros H; now rewrite <- IH | discriminate].
Qed.

Lemma quiet_bind {A B : Type} (c : io A) (k : A -> io B) :
  quiet c -> (forall a, quiet (k a)) -> quiet (bind c k).
Proof.
  unfold quiet. destruct c as [t [a|e]]; simpl; intros Hc Hk; [|exact Hc].
  specialize (Hk a). destruct (k a) as [t' r]. simpl in *.
  now rewrite requested_app, Hc, Hk.
Qed.

Lemma quiet_lift {A : Type} (c : outcome A) : quiet (lift c).
Proof. reflexivity. Qed.

Lemma quiet_print (s : string) : quiet (print s).
Proof. reflexivity. Qed.

Lemma quiet_for_each {A : Type} (xs : list A) (body : A -> io unit) :
  (forall x, quiet (body x)) -> quiet (for_each xs body).
Proof.
  intros Hb. induction xs as [|x xs IH]; [reflexivity|].
  simpl for_each. apply quiet_bind; auto.
Qed.

Ltac quiet_steps :=
  repeat first
    [ apply quiet_lift | apply quiet_print
    | apply quiet_for_each; intros
    | apply quiet_bind; [|intros] ].

Lemma display_issues_quiet (issues : json) (output_format : string) :
  quiet (display_issues issues output_format).
Proof.
  unfold display_issues.
  destruct (String.eqb output_format "json"); [apply quiet_print|].
  destruct (negb (truthy issues)); [apply quiet_print|].
  quiet_steps.
Qed.

Lemma display_versions_quiet (versions : json) (output_format : string) :
  quiet (display_versions versions output_format).
Proof.
  unfold display_versions.
  destruct (String.eqb output_format "json"); [apply quiet_print|].
  destruct (negb (truthy versions)); [apply quiet_print|].
  quiet_steps.
Qed.

Lemma bind_raise {A B : Type} (t : list event) (e : py_exn) (k : A -> io B) :
  bind ((t, Raise e) : io A) k = (t, Raise e).
Proof. reflexivity. Qed.

Lemma bind_ret {A B : Type} (t : list event) (v : A) (k : A -> io B) :
  bind ((t, Ret v) : io A) k = ((t ++ fst (k v))%list, snd (k v)).
Proof. simpl. now destruct (k v). Qed.

(** A fetch that sends one request, followed by a display that only
    prints: the run sends that one request. *)
Lemma requested_fetch_display {A : Type} (fetch : io A)
  (display : A -> io unit) (endpoint : string) (auth : string * string)
  (headers : list (string * string)) (t : list event) (res : outcome A) :
  fetch = (HttpGet endpoint auth headers :: t, res) ->
  requested t = [] ->
  (forall x, quiet (display x)) ->
  requested (fst (bind fetch display)) = [endpoint].
Proof.
  intros -> Ht Hq. destruct res as [v|e].
  - rewrite bind_ret. simpl. rewrite requested_app, Ht. simpl.
    now rewrite (Hq v).
  - rewrite bind_raise. simpl. now rewrite Ht.
Qed.

(** [main] branches on the truth value of [args.release_id] and on
    [args.list_issues]. *)
Lemma main_branches (net : network) (a : args) :
  main net a
  = if release_id_given a && list_issues a
    then bind (get_issues_for_version net (url a) (project_key a)
                 (passed_release_id a) (user a) (token a))
              (fun issues => display_issues issues (format a))
    else bind (get_project_versions net (url a) (project_key a)
                 (user a) (token a))
              (fun versions => display_versions versions (format a)).
Proof. reflexivity. Qed.

Lemma request_url_branches (a : args) :
  request_url a
  = if release_id_given a && list_issues a
    then issues_endpoint (url a) (project_key a) (passed_release_id a)
    else versions_endpoint (url a) (project_key a).
Proof.
  unfold request_url, release_id_given, passed_release_id.
  destruct (release_id a); reflexivity.
Qed.

(** Every run of [main] sends exactly one request, to [request_url]. *)
Lemma main_requested (net : network) (a : args) :
  requested (fst (main net a)) = [request_url a].
Proof.
  rewrite main_branches, request_url_branches.
  destruct (release_id_given a && list_issues a).
  - destruct (get_issues_for_version_run net (url a) (project_key a)
                (passed_release_id a) (user a) (token a))
      as (t & res & E & Ht & _).
    eapply requested_fetch_display; eauto using display_issues_quiet.
  - destruct (get_project_versions_run net (url a) (project_key a)
                (user a) (token a)) as (t & res & E & Ht & _).
    eapply requested_fetch_display; eauto using display_versions_quiet.
Qed.


(* ===================================================================== *)
(** * The command line driver: dispatch *)
(* ===================================================================== *)

(** C1, as amended.  [main] fetches and displays the issues of a release
    if and only if [--release-id] has a non-empty value and
    [--list-issues] is set; in every other case it fetches and displays
    the versions of the project.  The display follows the fetch and runs
    when the fetch returns. *)
Theorem main_dispatch (net : network) (a : args) :
  let wanted :=
    match release_id a with
    | Some rid => negb (String.eqb rid EmptyString) && list_issues a
    | None => false
    end in
  let issues_run rid :=
    bind (get_issues_for_version net (url a) (project_key a) rid
            (user a) (token a))
         (fun issues => display_issues issues (format a)) in
  let versions_run :=
    bind (get_project_versions net (url a) (project_key a) (user a) (token a))
         (fun versions => display_versions versions (format a)) in
  (wanted = true <-> exists rid, main net a = issues_run rid)
  /\ (wanted = false <-> main net a = versions_run)
  /\ (wanted = true -> release_id a = Some (passed_release_id a)
                       /\ main net a = issues_run (passed_release_id a)).
Proof.
  intros wanted issues_run versions_run.
  assert (Hw : wanted = release_id_given a && list_issues a).
  { unfold wanted, release_id_given. now destruct (release_id a). }
  assert (Hissues : forall rid,
             requested (fst (issues_run rid))
             = [issues_endpoint (url a) (project_key a) rid]).
  { intros rid.
    destruct (get_issues_for_version_run net (url a) (project_key a) rid
                (user a) (token a)) as (t & res & E & Ht & _).
    eapply requested_fetch_display; eauto using display_issues_quiet. }
  assert (Hversions :
             requested (fst versions_run)
             = [versions_endpoint (url a) (project_key a)]).
  { destruct (get_project_versions_run net (url a) (project_key a)
                (user a) (token a)) as (t & res & E & Ht & _).
    eapply requested_fetch_display; eauto using display_versions_quiet. }
  pose proof (main_branches net a) as Hm. rewrite <- Hw in Hm.
  fold (issues_run (passed_release_id a)) in Hm. fold versions_run in Hm.
  destruct wanted eqn:W.
  - split; [|split].
    + split; [eauto | reflexivity].
    + split; [discriminate|]. intros E. exfalso.
      rewrite Hm in E. apply (f_equal (fun c => requested (fst c))) in E.
      rewrite Hissues, Hversions in E. injection E as E.
      exact (endpoints_differ _ _ _ E).
    + intros _. split; [|exact Hm].
      unfold passed_release_id. unfold release_id_given in Hw.
      destruct (release_id a); [reflexivity | discriminate Hw].
  - split; [|split].
    + split; [discriminate|]. intros [rid E]. exfalso.
      rewrite Hm in E. apply (f_equal (fun c => requested (fst c))) in E.
      rewrite Hissues, Hversions in E. injection E as E.
      exact (endpoints_differ _ _ _ (eq_sym E)).
    + split; [intros _; exact Hm | reflexivity].
    + discriminate.
Qed.

Lemma dispatch_issues_of_release :
  main (Sample.always (Sample.found (JList []))) Sample.issues_of_release
  = bind (get_issues_for_version (Sample.always (Sample.found (JList [])))
            Sample.base "PROJ" "10001" "user" "secret")
         (fun issues => display_issues issues "text").
Proof.
  apply (proj2 (proj2 (main_dispatch
                         (Sample.always (Sample.found (JList [])))
                         Sample.issues_of_release))).
  reflexivity.
Defined.

(** C1, as stated, fails: with [--release-id ""] and [--list-issues] the
    release id is provided and the flag is set, and [main] lists the
    versions. *)
Lemma empty_release_id_lists_versions :
  release_id Sample.empty_release_id <> None
  /\ list_issues Sample.empty_release_id = true
  /\ main (Sample.always Sample.no_versions) Sample.empty_release_id
     = bind (get_project_versions (Sample.always Sample.no_versions)
               Sample.base "PROJ" "user" "secret")
            (fun versions => display_versions versions "text")
  /\ main (Sample.always Sample.no_versions) Sample.empty_release_id
     = ([HttpGet "https://jira.example.com/rest/api/2/project/PROJ/versions"
           ("user", "secret") [("Accept", "application/json")];
         Print "No releases found for this project."], Ret tt).
Proof.
  split; [discriminate|]. split; [reflexivity|].
  split; vm_compute; reflexivity.
Qed.

(* ===================================================================== *)
(** * The HTTP layer: errors end the run *)
(* ===================================================================== *)

Lemma http_error_is_error (r : reply) :
  http_error r = true -> is_error r = true.
Proof.
  destruct r as [resp|cls msg]; [|reflexivity].
  unfold http_error, is_error. now intros ->.
Qed.

(** After an error [get_project_versions] has printed one line or two. *)
Lemma versions_diagnostics_count (net : network)
  (jira_url project_key username api_token : string) :
  http_error (net (versions_endpoint jira_url project_key)
                (username, api_token) accept_json) = true ->
  let n :=
    List.length
      (printed (fst (get_project_versions net jira_url project_key
                       username api_token))) in
  n = 1 \/ n = 2.
Proof.
  unfold get_project_versions, try_request, requests_get, http_error.
  destruct (net _ (username, api_token) accept_json) as [resp | cls msg].
  - intros Hs. cbv beta iota.
    pose proof (raise_for_status_spec resp) as Hr. rewrite Hs in Hr.
    destruct Hr as [msg ->]. cbn.
    destruct (status_code resp =? 401)%Z;
      [|destruct (status_code resp =? 403)%Z;
        [|destruct (status_code resp =? 404)%Z]]; cbn; auto.
  - intros _. destruct cls; cbn; auto.
Qed.

(** After an error [get_issues_for_version] has printed one line or two. *)
Lemma issues_diagnostics_count (net : network)
  (jira_url project_key version_id username api_token : string) :
  http_error (net (issues_endpoint jira_url project_key version_id)
                (username, api_token) accept_json) = true ->
  let n :=
    List.length
      (printed (fst (get_issues_for_version net jira_url project_key
                       version_id username api_token))) in
  n = 1 \/ n = 2.
Proof.
  unfold get_issues_for_version, try_request, requests_get, http_error.
  destruct (net _ (username, api_token) accept_json) as [resp | cls msg].
  - intros Hs. cbv beta iota.
    pose proof (raise_for_status_spec resp) as Hr. rewrite Hs in Hr.
    destruct Hr as [msg ->]. cbn.
    destruct (status_code resp =? 401)%Z;
      [|destruct (status_code resp =? 403)%Z;
        [|destruct (status_code resp =? 400)%Z]]; cbn; auto.
  - intros _. destruct cls; cbn; auto.
Qed.

(** C2, as amended.  After every error the HTTP layer classifies (a status
    from 400 to 599, a connection failure, a timeout, any other exception
    of the request) the run is: the one request, one or two printed
    diagnostics, [sys.exit(1)].  Nothing is sent twice, nothing is
    displayed, and the exit status is 1; so a run that ends with status 0
    had no such error. *)
Theorem http_errors_exit_1 (net : network) (a : args) :
  http_error (net (request_url a) (user a, token a) accept_json) = true ->
  exists diagnostics,
    (List.length diagnostics = 1 \/ List.length diagnostics = 2)
    /\ diagnostics <> []
    /\ main net a
       = (HttpGet (request_url a) (user a, token a) accept_json
            :: map Print diagnostics,
          Raise (SystemExit 1))
    /\ requested (fst (main net a)) = [request_url a]
    /\ exit_status (main net a) = 1%Z.
Proof.
  intros Hhttp. pose proof (http_error_is_error _ Hhttp) as Herr.
  rewrite request_url_branches in Herr, Hhttp.
  assert (Hgoal : exists t,
             (List.length (printed t) = 1 \/ List.length (printed t) = 2)
             /\ printed t <> [] /\ requested t = []
             /\ main net a
                = (HttpGet (request_url a) (user a, token a) accept_json :: t,
                   Raise (SystemExit 1))).
  { rewrite main_branches, request_url_branches.
    destruct (release_id_given a && list_issues a).
    - pose proof (issues_diagnostics_count net (url a) (project_key a)
                    (passed_release_id a) (user a) (token a) Hhttp) as Hn.
      destruct (get_issues_for_version_run net (url a) (project_key a)
                  (passed_release_id a) (user a) (token a))
        as (t & res & E & Ht & He & _).
      destruct (He Herr) as [Hp ->]. exists t. rewrite E in *. auto.
    - pose proof (versions_diagnostics_count net (url a) (project_key a)
                    (user a) (token a) Hhttp) as Hn.
      destruct (get_project_versions_run net (url a) (project_key a)
                  (user a) (token a)) as (t & res & E & Ht & He & _).
      destruct (He Herr) as [Hp ->]. exists t. rewrite E in *. auto. }
  destruct Hgoal as (t & Hn & Hp & Ht & E).
  exists (printed t). split; [exact Hn|]. split; [exact Hp|].
  rewrite <- (quiet_is_prints t Ht). split; [exact E|].
  split; [apply main_requested|]. now rewrite E.
Qed.

Lemma not_found_exits_1 :
  exists diagnostics,
    (List.length diagnostics = 1 \/ List.length diagnostics = 2)
    /\ diagnostics <> []
    /\ main (Sample.always Sample.not_found) Sample.list_releases
       = (HttpGet (request_url Sample.list_releases) ("user", "secret")
            accept_json :: map Print diagnostics,
          Raise (SystemExit 1))
    /\ requested (fst (main (Sample.always Sample.not_found)
                         Sample.list_releases))
       = [request_url Sample.list_releases]
    /\ exit_status (main (Sample.always Sample.not_found)
                      Sample.list_releases) = 1%Z.
Proof.
  apply (http_errors_exit_1 (Sample.always Sample.not_found)
           Sample.list_releases).
  reflexivity.
Defined.

(** C2, as stated, fails: the status 300 is not a 2xx status, and the run
    displays the document and ends with status 0. *)
Lemma status_300_exits_0 :
  status_code Sample.multiple_choices = 300%Z
  /\ main (Sample.always Sample.multiple_choices) Sample.list_releases
     = ([HttpGet "https://jira.example.com/rest/api/2/project/PROJ/versions"
           ("user", "secret") [("Accept", "application/json")];
         Print "No releases found for this project."], Ret tt)
  /\ exit_status (main (Sample.always Sample.multiple_choices)
                    Sample.list_releases) = 0%Z.
Proof. split; [reflexivity|]. split; vm_compute; reflexivity. Qed.

(* ===================================================================== *)
(** * The HTTP layer: endpoints *)
(* ===================================================================== *)



(** C9.  Both fetch functions drop a trailing slash of the base URL: the
    request goes to [base/rest/api/2/...] whether the URL given is
    [base/] or, when [base] does not end with a slash, [base] itself. *)
Theorem trailing_slash_normalized (net : network)
  (base project_key version_id username api_token : string) :
  let versions := base ++ "/rest/api/2/project/" ++ project_key ++ "/versions" in
  let issues :=
    base ++ "/rest/api/2/search?jql="
      ++ Url.quote (jql_query project_key version_id) ++ "&maxResults=1000" in
  (requested (fst (get_project_versions net (base ++ "/") project_key
                     username api_token)) = [versions]
   /\ requested (fst (get_issues_for_version net (base ++ "/") project_key
                        version_id username api_token)) = [issues])
  /\ (Str.endswith_slash base = false ->
      requested (fst (get_project_versions net base project_key
                        username api_token)) = [versions]
      /\ requested (fst (get_issues_for_version net base project_key
                           version_id username api_token)) = [issues]).
Proof.
  intros versions issues.
  assert (Hv : forall u, requested (fst (get_project_versions net u project_key
                                           username api_token))
                         = [versions_endpoint u project_key]).
  { intros u. destruct (get_project_versions_run net u project_key
                          username api_token) as (t & res & -> & Ht & _).
    simpl. now rewrite Ht. }
  assert (Hi : forall u, requested (fst (get_issues_for_version net u
                                           project_key version_id
                                           username api_token))
                         = [issues_endpoint u project_key version_id]).
  { intros u. destruct (get_issues_for_version_run net u project_key
                          version_id username api_token)
      as (t & res & -> & Ht & _).
    simpl. now rewrite Ht. }
  rewrite !Hv, !Hi. unfold versions_endpoint, issues_endpoint.
  rewrite strip_slash_app. split; [split; reflexivity|].
  intros H. rewrite (strip_slash_id base H). split; reflexivity.
Qed.

Lemma endpoints_without_slash :
  requested (fst (get_project_versions (Sample.always Sample.no_versions)
                    "https://jira.example.com" "PROJ" "user" "secret"))
  = ["https://jira.example.com/rest/api/2/project/PROJ/versions"]
  /\ requested (fst (get_issues_for_version
                       (Sample.always Sample.no_versions)
                       "https://jira.example.com" "PROJ" "7" "user" "secret"))
     = ["https://jira.example.com/rest/api/2/search?jql="
          ++ Url.quote (jql_query "PROJ" "7") ++ "&maxResults=1000"].
Proof.
  apply (proj2 (trailing_slash_normalized (Sample.always Sample.no_versions)
                  "https://jira.example.com" "PROJ" "7" "user" "secret")).
  reflexivity.
Defined.

(* ===================================================================== *)
(** * The formatter: empty lists *)
(* ===================================================================== *)

(** C8.  For the empty list, [display_versions] in text mode prints the
    one line [No releases found for this project.], and [display_issues]
    the one line [No issues found for this release.]; neither prints a
    count, a header or a row. *)
Theorem display_empty_list :
  display_versions (JList []) "text"
  = ([Print "No releases found for this project."], Ret tt)
  /\ stdout (fst (display_versions (JList []) "text"))
     = "No releases found for this project." ++ String "010" EmptyString
  /\ display_issues (JList []) "text"
     = ([Print "No issues found for this release."], Ret tt)
  /\ stdout (fst (display_issues (JList []) "text"))
     = "No issues found for this release." ++ String "010" EmptyString.
Proof. repeat split. Qed.

(* ===================================================================== *)
(** * The formatter: rows *)
(* ===================================================================== *)

Lemma version_row_line (v : json) :
  version_ok v = true -> version_row v = Ret (version_line v).
Proof.
  destruct v as [| | | |l|d]; try discriminate.
  unfold version_ok, version_row, version_line, Py.get.
  destruct (dict_get "id" d) as [[]|]; try discriminate;
  destruct (dict_get "name" d) as [[]|]; try discriminate;
  destruct (dict_get "releaseDate" d) as [[]|]; try discriminate;
  intros _; destruct (dict_get "released" d) as [flag|];
  destruct (dict_get "description" d) as [text|]; reflexivity.
Qed.

Lemma truncate_summary_text (s : string) :
  truncate_summary (JStr s) = Ret (JStr (shown_summary s)).
Proof.
  unfold truncate_summary, shown_summary. simpl.
  destruct (70 <? String.length s)%nat; reflexivity.
Qed.

Lemma outcome_bind_ret {A B : Type} (a : A) (k : A -> outcome B) :
  bind (Ret a) k = k a.
Proof. reflexivity. Qed.

Lemma get_text (d : list (string * json)) (k placeholder : string) :
  text_or_absent (dict_get k d) = true ->
  Py.get (JDict d) k (JStr placeholder)
  = Ret (JStr (text_or placeholder (dict_get k d))).
Proof.
  unfold Py.get. destruct (dict_get k d) as [[]|]; try discriminate; reflexivity.
Qed.

Lemma get_name {B : Type} (f : list (string * json)) (k : string)
  (K : json -> outcome B) :
  named_or_absent (dict_get k f) = true ->
  (x <- Py.get (JDict f) k (JDict []) ;;
   y <- Py.get x "name" (JStr "N/A") ;; K y)
  = K (JStr (text_or "N/A" (sub "name" (dict_get k f)))).
Proof.
  unfold Py.get, named_or_absent, sub.
  destruct (dict_get k f) as [[| | | |?|n]|]; try discriminate; simpl.
  - destruct (dict_get "name" n) as [[]|]; try discriminate; reflexivity.
  - reflexivity.
Qed.

Lemma issue_row_line (v : json) :
  issue_ok v = true -> issue_row v = Ret (issue_line v).
Proof.
  destruct v as [| | | |l|d]; try discriminate.
  unfold issue_ok. intros H. apply andb_true_iff in H as [Hkey Hfields].
  set (f := match dict_get "fields" d with Some (JDict f) => f | _ => [] end).
  assert (Hf : Py.get (JDict d) "fields" (JDict []) = Ret (JDict f)).
  { unfold Py.get, f.
    destruct (dict_get "fields" d) as [[]|]; try discriminate; reflexivity. }
  assert (Hsub : forall k, sub k (dict_get "fields" d) = dict_get k f).
  { intros k. unfold f, sub.
    destruct (dict_get "fields" d) as [[]|]; try discriminate; reflexivity. }
  assert (Hok : named_or_absent (dict_get "issuetype" f) = true
                /\ named_or_absent (dict_get "status" f) = true
                /\ named_or_absent (dict_get "priority" f) = true
                /\ text_or_absent (dict_get "summary" f) = true).
  { unfold f. destruct (dict_get "fields" d) as [[]|]; try discriminate.
    - now repeat (apply andb_true_iff in Hfields as [Hfields ?]).
    - repeat split. }
  destruct Hok as (H1 & H2 & H3 & H4).
  unfold issue_row, issue_line, issue_columns, summary_of.
  rewrite !Hsub, (get_text d "key" "N/A" Hkey), Hf.
  rewrite !outcome_bind_ret.
  rewrite (get_name f "issuetype" _ H1), outcome_bind_ret.
  rewrite (get_name f "status" _ H2), outcome_bind_ret.
  rewrite (get_name f "priority" _ H3), outcome_bind_ret.
  rewrite (get_text f "summary" "N/A" H4).
  rewrite outcome_bind_ret, truncate_summary_text.
  cbn [bind Monad_outcome ret Py.format_left Py.str].
  now rewrite !append_assoc.
Qed.

Lemma bind_lift_ret {A B : Type} (a : A) (k : A -> io B) :
  bind (lift (Ret a)) k = k a.
Proof. simpl. now destruct (k a). Qed.

Lemma bind_print {B : Type} (s : string) (k : unit -> io B) :
  bind (print s) k = (Print s :: fst (k tt), snd (k tt)).
Proof. simpl. now destruct (k tt). Qed.

Lemma for_each_rows (row : json -> outcome string) (line : json -> string)
  (items : list json) :
  Forall (fun x => row x = Ret (line x)) items ->
  for_each items (fun x => r <- lift (row x) ;; print r)
  = (map Print (map line items), Ret tt).
Proof.
  induction 1 as [|x items Hx _ IH]; [reflexivity|].
  cbn [for_each]. rewrite IH, Hx. reflexivity.
Qed.

Lemma length_take (n : nat) (s : string) :
  n <= String.length s -> String.length (Str.take n s) = n.
Proof.
  unfold Str.take. revert s.
  induction n as [|n IH]; intros s H.
  - now destruct s.
  - destruct s as [|c s]; simpl in *; [lia|]. rewrite IH; lia.
Qed.

Lemma substring_skip (a b : string) (m : nat) :
  substring (String.length a) m (a ++ b) = substring 0 m b.
Proof. induction a as [|c a IH]; simpl; auto. Qed.

Lemma substring_prefix (a b : string) :
  substring 0 (String.length a) (a ++ b) = a.
Proof.
  induction a as [|c a IH]; simpl; [now destruct b | now rewrite IH].
Qed.

Lemma display_issues_rows (issues : list json) :
  issues <> [] ->
  forallb issue_ok issues = true ->
  display_issues (JList issues) "text"
  = (map Print
       (("Found " ++ Str.of_nat (List.length issues) ++ " issues:")
          :: Str.replicate 120 "-" :: issues_header :: Str.replicate 120 "-"
          :: map issue_line issues),
     Ret tt).
Proof.
  intros Hne Hok.
  assert (Hrows : Forall (fun x => issue_row x = Ret (issue_line x)) issues).
  { apply Forall_forall. intros x Hx. apply issue_row_line.
    rewrite forallb_forall in Hok. auto. }
  unfold display_issues.
  change (String.eqb "text" "json") with false. cbv iota.
  destruct issues as [|i issues]; [contradiction|].
  change (negb (truthy (JList (i :: issues)))) with false. cbv iota.
  change (Py.len (JList (i :: issues)))
    with (Ret (A := nat) (List.length (i :: issues))).
  change (Py.iter (JList (i :: issues))) with (Ret (i :: issues)).
  set (items := i :: issues) in *.
  rewrite bind_lift_ret, !bind_print, bind_lift_ret.
  rewrite (for_each_rows issue_row issue_line items Hrows). reflexivity.
Qed.

(** C4, as amended.  For issues whose sub-fields are each absent or of
    their type, [display_issues] in text mode does not fail, and every
    missing sub-field ([key], [issuetype.name], [status.name],
    [priority.name], [summary]) is shown as [N/A]; an issue without the
    [priority] field has [N/A] in the Priority column. *)
Theorem display_issues_missing_fields (issues : list json) :
  issues <> [] ->
  forallb issue_ok issues = true ->
  map_outcome issue_row issues = Ret (map issue_line issues)
  /\ display_issues (JList issues) "text"
     = (map Print
          (("Found " ++ Str.of_nat (List.length issues) ++ " issues:")
             :: Str.replicate 120 "-" :: issues_header
             :: Str.replicate 120 "-" :: map issue_line issues),
        Ret tt)
  /\ (forall d,
        In (JDict d) issues ->
        issue_line (JDict d)
        = Str.ljust 15 (match dict_get "key" d with
                        | Some (JStr s) => s
                        | _ => "N/A"
                        end) ++ " "
            ++ Str.ljust 15
                 (match sub "name" (sub "issuetype" (dict_get "fields" d)) with
                  | Some (JStr s) => s
                  | _ => "N/A"
                  end) ++ " "
            ++ Str.ljust 15
                 (match sub "name" (sub "status" (dict_get "fields" d)) with
                  | Some (JStr s) => s
                  | _ => "N/A"
                  end) ++ " "
            ++ Str.ljust 10
                 (match sub "name" (sub "priority" (dict_get "fields" d)) with
                  | Some (JStr s) => s
                  | _ => "N/A"
                  end) ++ " "
            ++ shown_summary
                 (match sub "summary" (dict_get "fields" d) with
                  | Some (JStr s) => s
                  | _ => "N/A"
                  end)).
Proof.
  intros Hne Hok. split; [|split].
  - clear Hne. induction issues as [|i issues IH]; [reflexivity|].
    simpl in Hok. apply andb_true_iff in Hok as [Hi Hok].
    simpl. rewrite (issue_row_line i Hi), (IH Hok). reflexivity.
  - now apply display_issues_rows.
  - intros d _. unfold issue_line, issue_columns, summary_of, text_or.
    now rewrite !append_assoc.
Qed.

Lemma row_without_priority :
  display_issues (JList [Sample.no_priority]) "text"
  = ([Print "Found 1 issues:";
      Print (Str.replicate 120 "-");
      Print "Key             Type            Status          Priority   Summary";
      Print (Str.replicate 120 "-");
      Print "PROJ-1          Bug             Done            N/A        Crash on start"],
     Ret tt).
Proof.
  apply (proj1 (proj2 (display_issues_missing_fields [Sample.no_priority]
                         ltac:(discriminate) eq_refl))).
Defined.

(** C4, as stated, fails: a [priority] field that is [null] is a malformed
    sub-field, and the loop ends with an [AttributeError] at its row. *)
Lemma null_priority_raises :
  display_issues (JList [Sample.null_priority]) "text"
  = ([Print "Found 1 issues:";
      Print (Str.replicate 120 "-");
      Print "Key             Type            Status          Priority   Summary";
      Print (Str.replicate 120 "-")],
     Raise AttributeError)
  /\ exit_status (display_issues (JList [Sample.null_priority]) "text") = 1%Z.
Proof. split; vm_compute; reflexivity. Qed.

(** C5.  In the table [display_issues] prints, the row of an issue ends
    with its summary: the first 67 characters followed by [...] when the
    summary is longer than 70 characters, which makes 70 characters; the
    summary itself otherwise. *)
Theorem summary_truncation (issues : list json) :
  issues <> [] ->
  forallb issue_ok issues = true ->
  snd (display_issues (JList issues) "text") = Ret tt
  /\ (forall n issue s,
        nth_error issues n = Some issue ->
        summary_of issue = Some (JStr s) ->
        nth_error (printed (fst (display_issues (JList issues) "text")))
          (4 + n)
        = Some (issue_columns issue
                  ++ (if (70 <? String.length s)%nat
                      then substring 0 67 s ++ "..." else s)))
  /\ (forall s,
        70 < String.length s ->
        String.length (substring 0 67 s ++ "...") = 70
        /\ substring 0 67 (substring 0 67 s ++ "...") = substring 0 67 s
        /\ substring 67 3 (substring 0 67 s ++ "...") = "...").
Proof.
  intros Hne Hok. rewrite (display_issues_rows issues Hne Hok).
  split; [reflexivity|]. split.
  - intros n issue s Hn Hs. cbn [fst]. rewrite printed_prints.
    cbn [Nat.add nth_error].
    rewrite (map_nth_error issue_line n issues Hn).
    unfold issue_line. now rewrite Hs.
  - intros s Hlen.
    assert (H67 : String.length (substring 0 67 s) = 67).
    { apply (length_take 67 s). lia. }
    split; [|split].
    + rewrite length_append, H67. reflexivity.
    + rewrite <- H67 at 1. apply substring_prefix.
    + rewrite <- H67 at 1. rewrite substring_skip. reflexivity.
Qed.

Lemma row_of_long_summary :
  nth_error (printed (fst (display_issues (JList [Sample.long_summary])
                             "text"))) 4
  = Some ("PROJ-3          N/A             N/A             N/A        "
            ++ Str.replicate 67 "x" ++ "...")
  /\ String.length (Str.replicate 67 "x" ++ "...") = 70.
Proof.
  pose proof (summary_truncation [Sample.long_summary]
                ltac:(discriminate) eq_refl) as (_ & Hrow & Hlen).
  split.
  - exact (Hrow 0 Sample.long_summary (Str.replicate 75 "x")
             eq_refl eq_refl).
  - apply (proj1 (Hlen (Str.replicate 75 "x") ltac:(vm_compute; lia))).
Defined.


(* ===================================================================== *)
(** * The order of strings *)
(* ===================================================================== *)

Lemma compare_refl (s : string) : String.compare s s = Eq.
Proof.
  induction s as [|c s IH]; [reflexivity|].
  simpl. unfold Ascii.compare. now rewrite N.compare_refl.
Qed.

Lemma compare_lt_trans (a b c : string) :
  String.compare a b = Lt -> String.compare b c = Lt ->
  String.compare a c = Lt.
Proof.
  revert b c. induction a as [|x a IH]; intros [|y b] [|z c]; simpl;
    try discriminate; auto.
  unfold Ascii.compare.
  destruct (N.compare_spec (N_of_ascii x) (N_of_ascii y)) as [Exy|Lxy|Gxy];
    try discriminate;
    destruct (N.compare_spec (N_of_ascii y) (N_of_ascii z)) as [Eyz|Lyz|Gyz];
    try discriminate; intros H1 H2.
  - rewrite Exy, Eyz, N.compare_refl. eauto.
  - rewrite Exy. now apply N.compare_lt_iff in Lyz as ->.
  - rewrite <- Eyz. now apply N.compare_lt_iff in Lxy as ->.
  - assert (L : (N_of_ascii x < N_of_ascii z)%N) by lia.
    now apply N.compare_lt_iff in L as ->.
Qed.

Lemma leb_refl (s : string) : String.leb s s = true.
Proof. unfold String.leb. now rewrite compare_refl. Qed.

Lemma leb_trans (a b c : string) :
  String.leb a b = true -> String.leb b c = true -> String.leb a c = true.
Proof.
  unfold String.leb.
  destruct (String.compare a b) eqn:Eab; try discriminate;
    destruct (String.compare b c) eqn:Ebc; try discriminate; intros _ _.
  - apply String.compare_eq_iff in Eab, Ebc. subst. now rewrite compare_refl.
  - apply String.compare_eq_iff in Eab. subst. now rewrite Ebc.
  - apply String.compare_eq_iff in Ebc. subst. now rewrite Eab.
  - now rewrite (compare_lt_trans a b c Eab Ebc).
Qed.

Lemma ltb_leb (a b : string) : String.ltb a b = true -> String.leb a b = true.
Proof. unfold String.ltb, String.leb. now destruct (String.compare a b). Qed.

Lemma ltb_false_leb (a b : string) :
  String.ltb a b = false -> String.leb b a = true.
Proof.
  unfold String.ltb, String.leb. rewrite (String.compare_antisym b a).
  now destruct (String.compare a b).
Qed.

Lemma ltb_neq (a b : string) : String.ltb a b = true -> String.eqb a b = false.
Proof.
  unfold String.ltb. intros H. apply String.eqb_neq. intros ->.
  now rewrite compare_refl in H.
Qed.

Lemma ltb_not_leb (a b : string) :
  String.ltb a b = true -> String.leb b a = true -> False.
Proof.
  unfold String.ltb, String.leb. rewrite (String.compare_antisym b a).
  now destruct (String.compare a b).
Qed.

(* ===================================================================== *)
(** * [sorted] on text keys: a stable sort *)
(* ===================================================================== *)

Section StableSort.

Variable key : json -> string.

#[local] Abbreviation le := (key_le key).
#[local] Abbreviation pick := (has_key key).

Lemma insert_keyed_stable (x : json) (s : list json) :
  StronglySorted le s ->
  exists s',
    Py.insert_keyed (keyed key x) (map (keyed key) s)
    = Ret (map (keyed key) s')
    /\ Permutation (x :: s) s'
    /\ StronglySorted le s'
    /\ forall k, filter (pick k) s' = filter (pick k) (x :: s).
Proof.
  induction s as [|y s IH]; intros Hs.
  - exists [x]. repeat split; auto. repeat constructor.
  - apply StronglySorted_inv in Hs as [Hs Hy].
    simpl map. cbn [Py.insert_keyed keyed fst].
    change (Py.lt (JStr (key y)) (JStr (key x)))
      with (Ret (String.ltb (key y) (key x))).
    rewrite outcome_bind_ret.
    destruct (String.ltb (key y) (key x)) eqn:Hlt.
    + destruct (IH Hs) as (s' & E & Hp & Hs' & Hst).
      fold (keyed key x). rewrite E. exists (y :: s').
      split; [reflexivity|]. split; [|split].
      * rewrite perm_swap. now constructor.
      * constructor; [exact Hs'|].
        apply (Permutation_Forall Hp). constructor; [|exact Hy].
        now apply ltb_leb.
      * intros k. cbn [filter]. rewrite (Hst k). cbn [filter].
        unfold has_key.
        destruct (String.eqb_spec (key y) k) as [Ey|Ny];
          destruct (String.eqb_spec (key x) k) as [Ex|Nx]; try reflexivity.
        apply ltb_neq in Hlt. apply String.eqb_neq in Hlt. congruence.
    + exists (x :: y :: s). split; [reflexivity|]. split; [reflexivity|].
      split; [|reflexivity].
      assert (Hxy : le x y) by now apply ltb_false_leb.
      constructor; [now constructor|]. constructor; [exact Hxy|].
      eapply Forall_impl; [|exact Hy]. intros z Hz.
      exact (leb_trans _ _ _ Hxy Hz).
Qed.

Lemma sort_keyed_stable (l : list json) :
  exists s,
    Py.sort_keyed (map (keyed key) l) = Ret (map (keyed key) s)
    /\ Permutation l s
    /\ StronglySorted le s
    /\ forall k, filter (pick k) s = filter (pick k) l.
Proof.
  induction l as [|x l (s & E & Hp & Hs & Hst)].
  - exists []. repeat split; constructor.
  - simpl map. cbn [Py.sort_keyed]. rewrite E, outcome_bind_ret.
    destruct (insert_keyed_stable x s Hs) as (s' & E' & Hp' & Hs' & Hst').
    exists s'. split; [exact E'|]. split; [|split; [exact Hs'|]].
    + rewrite <- Hp'. now constructor.
    + intros k. rewrite Hst'. cbn [filter]. now rewrite Hst.
Qed.

End StableSort.

(* ===================================================================== *)
(** * The table of versions *)
(* ===================================================================== *)

Lemma release_key_text (v : json) :
  version_ok v = true -> release_key v = Ret (JStr (effective_date v)).
Proof.
  destruct v as [| | | |l|d]; try discriminate.
  unfold version_ok, release_key, effective_date, Py.get.
  destruct (dict_get "releaseDate" d) as [[| | |s| |]|];
    rewrite ?andb_false_r; try discriminate; intros _; [|reflexivity].
  cbn [bind Monad_outcome truthy].
  now destruct (String.eqb s EmptyString).
Qed.

Lemma keys_of_versions (versions : list json) :
  forallb version_ok versions = true ->
  map_outcome (fun v => k <- release_key v ;; ret (k, v)) versions
  = Ret (map (keyed effective_date) versions).
Proof.
  induction versions as [|v versions IH]; [reflexivity|].
  simpl forallb. intros H. apply andb_true_iff in H as [Hv H].
  cbn [map_outcome map]. rewrite (release_key_text v Hv), (IH H). reflexivity.
Qed.

Lemma map_snd_keyed (key : json -> string) (l : list json) :
  map snd (map (keyed key) l) = l.
Proof. induction l as [|x l IH]; simpl; congruence. Qed.

(** On versions of the data model [sorted] returns the stable sort by
    effective date. *)
Lemma sorted_versions_stable (versions : list json) :
  forallb version_ok versions = true ->
  exists s,
    Py.sorted release_key (JList versions) = Ret s
    /\ Permutation versions s
    /\ StronglySorted date_le s
    /\ forall date, filter (of_date date) s = filter (of_date date) versions.
Proof.
  intros Hok.
  destruct (sort_keyed_stable effective_date versions)
    as (s & E & Hp & Hs & Hst).
  exists s. split; [|auto].
  unfold Py.sorted. cbn [Py.iter]. rewrite outcome_bind_ret.
  rewrite (keys_of_versions versions Hok), outcome_bind_ret, E.
  rewrite outcome_bind_ret. cbn [ret Monad_outcome]. now rewrite map_snd_keyed.
Qed.

Lemma digit_le_9 (c : ascii) :
  is_digit c = true ->
  Ascii.compare c "9" = Lt \/ c = "9"%char.
Proof.
  unfold is_digit, Ascii.compare. intros H.
  apply andb_true_iff in H as [_ H]. apply N.leb_le in H.
  change (N_of_ascii "9") with 57%N.
  destruct (N.compare_spec (N_of_ascii c) 57) as [E|L|G]; [right|now left|lia].
  rewrite <- (ascii_N_embedding c), E. reflexivity.
Qed.

(** A calendar date sorts before [9999-99-99]. *)
Lemma iso_date_early (s : string) :
  iso_date s = true -> String.ltb s "9999-99-99" = true.
Proof.
  destruct s as [|y1 [|y2 [|y3 [|y4 [|h1 [|u1 [|u2 [|h2 [|t1 [|t2 [|]]]]]]]]]]];
    try discriminate.
  unfold iso_date. intros H.
  repeat match goal with
    | H : (_ && _)%bool = true |- _ => apply andb_true_iff in H as [? ?]
    end.
  repeat match goal with
    | H : Ascii.eqb _ _ = true |- _ => apply Ascii.eqb_eq in H; subst
    end.
  assert (L : Ascii.compare u1 "9" = Lt).
  { unfold Ascii.compare. change (N_of_ascii "9") with 57%N.
    apply N.compare_lt_iff. unfold is_digit in *.
    repeat match goal with
      | H : (_ && _)%bool = true |- _ => apply andb_true_iff in H as [? ?]
      | H : (_ <=? _)%N = true |- _ => apply N.leb_le in H
      end. lia. }
  unfold String.ltb. simpl String.compare.
  destruct (digit_le_9 y1) as [->| ->]; auto.
  destruct (digit_le_9 y2) as [->| ->]; auto.
  destruct (digit_le_9 y3) as [->| ->]; auto.
  destruct (digit_le_9 y4) as [->| ->]; auto.
  change (Ascii.compare "9" "9") with Eq. change (Ascii.compare "-" "-") with Eq.
  cbv iota. now rewrite L.
Qed.

Lemma undated_effective_date (v : json) :
  undated v = true -> effective_date v = "9999-99-99".
Proof.
  destruct v as [| | | |l|d]; try discriminate.
  unfold undated, effective_date.
  destruct (dict_get "releaseDate" d) as [[| | |s| |]|]; try discriminate;
    [now intros -> | reflexivity].
Qed.

Lemma dated_effective_date (v : json) :
  dated v = true -> String.ltb (effective_date v) "9999-99-99" = true.
Proof.
  destruct v as [| | | |l|d]; try discriminate.
  unfold dated, effective_date.
  destruct (dict_get "releaseDate" d) as [[| | |s| |]|]; try discriminate.
  intros H. destruct (String.eqb_spec s EmptyString) as [->|_];
    [discriminate | now apply iso_date_early].
Qed.

Lemma display_versions_rows (versions s : list json) :
  versions <> [] ->
  Py.sorted release_key (JList versions) = Ret s ->
  forallb version_ok s = true ->
  display_versions (JList versions) "text"
  = (map Print
       (("Found " ++ Str.of_nat (List.length versions) ++ " releases:")
          :: Str.replicate 80 "-" :: versions_header :: Str.replicate 80 "-"
          :: map version_line s),
     Ret tt).
Proof.
  intros Hne Hsorted Hok.
  assert (Hrows : Forall (fun x => version_row x = Ret (version_line x)) s).
  { apply Forall_forall. intros x Hx. apply version_row_line.
    rewrite forallb_forall in Hok. auto. }
  unfold display_versions.
  change (String.eqb "text" "json") with false. cbv iota.
  rewrite Hsorted.
  destruct versions as [|v versions]; [contradiction|].
  change (negb (truthy (JList (v :: versions)))) with false. cbv iota.
  change (Py.len (JList (v :: versions)))
    with (Ret (A := nat) (List.length (v :: versions))).
  rewrite !bind_lift_ret, !bind_print.
  rewrite (for_each_rows version_row version_line s Hrows). reflexivity.
Qed.

(** C3.  For a non-empty list of versions, [display_versions] in text
    mode prints the count, the header and one row per version, the rows
    sorted ascending by release date, a version whose release date is
    missing or empty sorting as if dated [9999-99-99]; versions of the
    same date, and the versions without a date, keep their input order;
    no version with a calendar date comes after a version without a
    date. *)
Theorem display_versions_sorted (versions : list json) :
  versions <> [] ->
  forallb version_ok versions = true ->
  exists sorted_versions,
    display_versions (JList versions) "text"
    = (map Print
         (("Found " ++ Str.of_nat (List.length versions) ++ " releases:")
            :: Str.replicate 80 "-" :: versions_header
            :: Str.replicate 80 "-" :: map version_line sorted_versions),
       Ret tt)
    /\ Permutation versions sorted_versions
    /\ StronglySorted
         (fun a b => String.leb (effective_date a) (effective_date b) = true)
         sorted_versions
    /\ (forall date,
          filter (fun v => String.eqb (effective_date v) date) sorted_versions
          = filter (fun v => String.eqb (effective_date v) date) versions)
    /\ (forall v, undated v = true -> effective_date v = "9999-99-99")
    /\ (forall before v after,
          sorted_versions = (before ++ v :: after)%list ->
          undated v = true ->
          forall w, In w after -> dated w = false).
Proof.
  intros Hne Hok.
  destruct (sorted_versions_stable versions Hok) as (s & E & Hp & Hs & Hst).
  exists s.
  assert (Hoks : forallb version_ok s = true).
  { apply forallb_forall. intros x Hx. rewrite forallb_forall in Hok.
    apply Hok. now apply (Permutation_in x (Permutation_sym Hp)). }
  split; [now apply display_versions_rows|].
  split; [exact Hp|]. split; [exact Hs|]. split; [exact Hst|].
  split; [exact undated_effective_date|].
  intros before v after -> Hv w Hw.
  destruct (dated w) eqn:Hd; [exfalso | reflexivity].
  assert (Hvw : date_le v w).
  { clear - Hs Hw. induction before as [|b before IH].
    - apply StronglySorted_inv in Hs as [_ Hf].
      rewrite Forall_forall in Hf. auto.
    - apply StronglySorted_inv in Hs as [Hs _]. auto. }
  unfold date_le, key_le in Hvw. rewrite (undated_effective_date v Hv) in Hvw.
  exact (ltb_not_leb _ _ (dated_effective_date w Hd) Hvw).
Qed.

Lemma table_of_sample_versions :
  exists sorted_versions,
    display_versions
      (JList [Sample.planned_version; Sample.released_version;
              Sample.undated_version; Sample.early_version]) "text"
    = (map Print
         ("Found 4 releases:" :: Str.replicate 80 "-" :: versions_header
            :: Str.replicate 80 "-" :: map version_line sorted_versions),
       Ret tt)
    /\ Permutation
         [Sample.planned_version; Sample.released_version;
          Sample.undated_version; Sample.early_version] sorted_versions.
Proof.
  destruct (display_versions_sorted
              [Sample.planned_version; Sample.released_version;
               Sample.undated_version; Sample.early_version]
              ltac:(discriminate) eq_refl) as (s & E & Hp & _).
  exists s. split; [exact E | exact Hp].
Defined.

(** C10.  In the table [display_versions] prints, the row of a version
    shows a missing [description] as the empty text and a missing
    [released] as [No]; [id], [name] and [releaseDate] are the fields
    shown as [N/A] when they are missing.  The table has one such row
    per version, after the four lines of the count and the header. *)
Theorem version_row_defaults (versions : list json) :
  versions <> [] ->
  forallb version_ok versions = true ->
  let row := fun d : list (string * json) =>
    Str.ljust 10 (match dict_get "id" d with
                  | Some (JStr s) => s
                  | _ => "N/A"
                  end) ++ " "
      ++ Str.ljust 20 (match dict_get "name" d with
                       | Some (JStr s) => s
                       | _ => "N/A"
                       end) ++ " "
      ++ Str.ljust 10 (match dict_get "released" d with
                       | Some flag => if truthy flag then "Yes" else "No"
                       | None => "No"
                       end) ++ " "
      ++ Str.ljust 12 (match dict_get "releaseDate" d with
                       | Some (JStr s) => s
                       | _ => "N/A"
                       end) ++ " "
      ++ match dict_get "description" d with
         | Some text => Py.str text
         | None => EmptyString
         end in
  let lines := printed (fst (display_versions (JList versions) "text")) in
  snd (display_versions (JList versions) "text") = Ret tt
  /\ List.length lines = 4 + List.length versions
  /\ (forall d, In (JDict d) versions -> In (row d) (skipn 4 lines)).
Proof.
  intros Hne Hok row lines.
  destruct (sorted_versions_stable versions Hok) as (s & E & Hp & _).
  assert (Hoks : forallb version_ok s = true).
  { apply forallb_forall. intros x Hx. rewrite forallb_forall in Hok.
    apply Hok. now apply (Permutation_in x (Permutation_sym Hp)). }
  subst lines. rewrite (display_versions_rows versions s Hne E Hoks).
  cbn [fst snd]. rewrite printed_prints. cbn [skipn List.length].
  split; [reflexivity|]. split.
  - rewrite length_map, (Permutation_length Hp). reflexivity.
  - intros d Hd.
    change (row d) with (version_line (JDict d)).
    apply in_map. exact (Permutation_in _ Hp Hd).
Qed.

Lemma row_of_empty_version :
  In "N/A        N/A                  No         N/A          "
    (skipn 4 (printed (fst (display_versions (JList [JDict []]) "text")))).
Proof.
  apply (proj2 (proj2 (version_row_defaults [JDict []]
                         ltac:(discriminate) eq_refl)) []).
  left. reflexivity.
Defined.

(** The table of the sample versions: the dated ones by date, then the
    two without a date in their input order. *)
Example sample_versions_table :
  printed (fst (display_versions
                  (JList [Sample.planned_version; Sample.released_version;
                          Sample.undated_version; Sample.early_version])
                  "text"))
  = ["Found 4 releases:";
     Str.replicate 80 "-";
     "ID         Name                 Released   Release Date Description";
     Str.replicate 80 "-";
     "10002      0.9                  No         2023-01-15   ";
     "10000      1.0                  Yes        2024-05-01   First release";
     "10001      2.0                  No         N/A          ";
     "10003      3.0                  No                      "].
Proof. vm_compute. reflexivity. Qed.

(* ===================================================================== *)
(** * [loads] after [dumps]: the lexical level *)
(* ===================================================================== *)

Lemma skip_ws_spaces (n : nat) (s : string) :
  Json.skip_ws (Str.replicate n " " ++ s) = Json.skip_ws s.
Proof. induction n as [|n IH]; [reflexivity | exact IH]. Qed.

Lemma skip_ws_newline_indent (indent level : nat) (s : string) :
  Json.skip_ws (Json.newline_indent indent level ++ s) = Json.skip_ws s.
Proof. unfold Json.newline_indent. simpl. apply skip_ws_spaces. Qed.

Lemma skip_ws_stop (c : ascii) (s : string) :
  Json.is_ws c = false -> Json.skip_ws (String c s) = String c s.
Proof. simpl. now intros ->. Qed.

(** ** Strings *)

Lemma parse_string_escape (s rest : string) :
  Json.parse_string (Json.escape s ++ String "034" rest) = Some (s, rest).
Proof.
  induction s as [|c s IH]; [reflexivity|].
  cbn [Json.escape]. rewrite append_assoc.
  revert IH. generalize (Json.escape s ++ String "034" rest). intros x IH.
  destruct c as [[|] [|] [|] [|] [|] [|] [|] [|]];
    simpl; rewrite IH; reflexivity.
Qed.

(** ** Numbers *)

Lemma delimited_head (rest : string) :
  delimited rest = true ->
  rest = EmptyString
  \/ exists r, rest = String "," r \/ rest = String "010" r.
Proof.
  destruct rest as [|c r]; [now left|]. simpl. intros H. right. exists r.
  apply orb_true_iff in H as [H|H]; apply Ascii.eqb_eq in H; subst; auto.
Qed.

Lemma read_digits_uint (d : uint) (rest : string) :
  delimited rest = true ->
  Json.read_digits (NilEmpty.string_of_uint d ++ rest) = (d, rest).
Proof.
  intros H. induction d; simpl; rewrite ?IHd; try reflexivity.
  destruct (delimited_head rest H) as [->|[r [->| ->]]]; reflexivity.
Qed.

(** The digits of a positive number do not start with a zero. *)
Lemma to_uint_head (p : positive) :
  match Pos.to_uint p with
  | Nil | D0 _ => False
  | _ => True
  end.
Proof.
  pose proof (DecimalPos.Unsigned.to_uint_nonnil p) as Hnil.
  pose proof (DecimalPos.Unsigned.to_uint_nonzero p) as Hzero.
  assert (Hnorm : unorm (Pos.to_uint p) = Pos.to_uint p).
  { rewrite <- (DecimalPos.Unsigned.to_of (Pos.to_uint p)).
    now rewrite DecimalPos.Unsigned.of_to. }
  destruct (Pos.to_uint p) as [|d| | | | | | | | |]; auto.
  rewrite unorm_D0 in Hnorm.
  destruct (uint_eq_dec d Nil) as [->|Hd]; [now apply Hzero|].
  pose proof (nb_digits_unorm d Hd) as Hlen. rewrite Hnorm in Hlen.
  simpl in Hlen. lia.
Qed.

Lemma parse_number_of_Z (n : Z) (rest : string) :
  delimited rest = true ->
  Json.parse_number (Str.of_Z n ++ rest) = Some (n, rest).
Proof.
  intros H.
  assert (Hafter : forall (sign : uint -> int) (d : uint),
             match d with Nil | D0 _ => False | _ => True end \/ d = D0 Nil ->
             match Json.read_nat (NilEmpty.string_of_uint d ++ rest) with
             | Some (d', r) =>
                 match r with
                 | String c _ =>
                     if (Ascii.eqb c "." || Ascii.eqb c "e" || Ascii.eqb c "E")%bool
                     then None else Some (Z.of_int (sign d'), r)
                 | EmptyString => Some (Z.of_int (sign d'), r)
                 end
             | None => None
             end = Some (Z.of_int (sign d), rest)).
  { intros sign d Hd. unfold Json.read_nat. rewrite (read_digits_uint d rest H).
    destruct (delimited_head rest H) as [->|[r [->| ->]]];
      destruct Hd as [Hd| ->]; try reflexivity;
      destruct d; try contradiction; reflexivity. }
  unfold Str.of_Z.
  rewrite <- (DecimalZ.of_to n) at 2.
  destruct n as [|p|p]; cbn [Z.to_int NilZero.string_of_int].
  - specialize (Hafter Pos (D0 Nil) (or_intror eq_refl)). exact Hafter.
  - pose proof (to_uint_head p) as Hp.
    specialize (Hafter Pos (Pos.to_uint p) (or_introl Hp)).
    unfold NilZero.string_of_uint.
    destruct (Pos.to_uint p); try contradiction; exact Hafter.
  - pose proof (to_uint_head p) as Hp.
    specialize (Hafter Neg (Pos.to_uint p) (or_introl Hp)).
    unfold NilZero.string_of_uint.
    destruct (Pos.to_uint p); try contradiction; exact Hafter.
Qed.

Lemma parse_value_of_Z (fuel : nat) (n : Z) (rest : string) :
  delimited rest = true ->
  Json.parse_value (S fuel) (Str.of_Z n ++ rest) = Some (JNum n, rest).
Proof.
  intros H. pose proof (parse_number_of_Z n rest H) as E.
  assert (Hhead : exists c s, Str.of_Z n ++ rest = String c s
                              /\ (c = "-"%char \/ Json.digit_of c <> None)).
  { unfold Str.of_Z. destruct n as [|p|p]; cbn [Z.to_int NilZero.string_of_int].
    - eexists _, _. split; [reflexivity|]. right. discriminate.
    - pose proof (to_uint_head p) as Hp. unfold NilZero.string_of_uint.
      destruct (Pos.to_uint p); try contradiction;
        (eexists _, _; split; [reflexivity|]; right; discriminate).
    - eexists _, _. split; [reflexivity|]. now left. }
  destruct Hhead as (c & s & Hs & Hc). rewrite Hs in *.
  destruct Hc as [->|Hc].
  - cbn [Json.parse_value]. now rewrite E.
  - destruct c as [[|] [|] [|] [|] [|] [|] [|] [|]];
      try (exfalso; apply Hc; reflexivity);
      cbn [Json.parse_value]; now rewrite E.
Qed.

(* ===================================================================== *)
(** * [loads] after [dumps]: values *)
(* ===================================================================== *)

Lemma of_Z_head (n : Z) :
  exists c s, Str.of_Z n = String c s
              /\ (c = "-"%char \/ Json.digit_of c <> None).
Proof.
  unfold Str.of_Z. destruct n as [|p|p]; cbn [Z.to_int NilZero.string_of_int].
  - eexists _, _. split; [reflexivity|]. right. discriminate.
  - pose proof (to_uint_head p) as Hp. unfold NilZero.string_of_uint.
    destruct (Pos.to_uint p); try contradiction;
      (eexists _, _; split; [reflexivity|]; right; discriminate).
  - eexists _, _. split; [reflexivity|]. now left.
Qed.

(** The first character of an encoded value is not white space and closes
    no container. *)
Lemma dumps_at_head (indent level : nat) (v : json) :
  exists c s, Json.dumps_at indent level v = String c s
              /\ Json.is_ws c = false
              /\ c <> "]"%char /\ c <> "}"%char.
Proof.
  destruct v as [|[|]|n|t|[|x l]|[|kv d]];
    try (eexists _, _; split; [reflexivity|]; repeat split; discriminate).
  destruct (of_Z_head n) as (c & s & E & Hc).
  exists c, s. split; [exact E|].
  destruct Hc as [->|Hc]; [repeat split; discriminate|].
  destruct c as [[|] [|] [|] [|] [|] [|] [|] [|]];
    try (exfalso; apply Hc; reflexivity); repeat split; discriminate.
Qed.

Lemma skip_ws_dumps (indent level : nat) (v : json) (rest : string) :
  Json.skip_ws (Json.dumps_at indent level v ++ rest)
  = Json.dumps_at indent level v ++ rest.
Proof.
  destruct (dumps_at_head indent level v) as (c & s & -> & Hws & _).
  simpl append. now apply skip_ws_stop.
Qed.

Lemma parse_value_array (fuel : nat) (text : string) (c : ascii) (s : string) :
  Json.skip_ws text = String c s ->
  c <> "]"%char ->
  Json.parse_value (S fuel) (String "[" text)
  = match Json.parse_items (Json.parse_value fuel) fuel (String c s) with
    | Some (vs, r) => Some (JList vs, r)
    | None => None
    end.
Proof.
  intros E Hc. cbn [Json.parse_value]. rewrite E.
  destruct c as [[|] [|] [|] [|] [|] [|] [|] [|]]; try reflexivity.
  now contradiction Hc.
Qed.

Lemma concat_cons (sep x : string) (y : string) (ls : list string) :
  String.concat sep (x :: y :: ls) = x ++ sep ++ String.concat sep (y :: ls).
Proof. reflexivity. Qed.

Lemma parse_items_last (value : string -> option (json * string))
  (fuel : nat) (s : string) (v : json) (r r' : string) :
  value s = Some (v, r) ->
  Json.skip_ws r = String "]" r' ->
  Json.parse_items value (S fuel) s = Some ([v], r').
Proof. intros E E'. cbn [Json.parse_items]. now rewrite E, E'. Qed.

Lemma parse_items_more (value : string -> option (json * string))
  (fuel : nat) (s : string) (v : json) (r' : string) :
  value s = Some (v, String "," r') ->
  Json.parse_items value (S fuel) s
  = match Json.parse_items value fuel (Json.skip_ws r') with
    | Some (vs, r'') => Some (v :: vs, r'')
    | None => None
    end.
Proof. intros E. cbn [Json.parse_items]. now rewrite E. Qed.

(** The items of an array, each at the indentation of the items, up to
    the closing bracket at the indentation of the array. *)
Lemma parse_items_dumps (value : string -> option (json * string))
  (indent level closing : nat) (l : list json) :
  forall (x : json) (rest : string) (fuel : nat),
  (forall y, In y (x :: l) -> forall r, delimited r = true ->
             value (Json.dumps_at indent level y ++ r) = Some (y, r)) ->
  List.length l < fuel ->
  Json.parse_items value fuel
    (String.concat ("," ++ Json.newline_indent indent level)
       (map (Json.dumps_at indent level) (x :: l))
     ++ Json.newline_indent indent closing ++ String "]" rest)
  = Some (x :: l, rest).
Proof.
  induction l as [|y l IH]; intros x rest fuel Hvalue Hfuel;
    (destruct fuel as [|fuel]; [inversion Hfuel|]).
  - cbn [map String.concat].
    apply parse_items_last
      with (r := Json.newline_indent indent closing ++ String "]" rest).
    + now apply Hvalue; [left|].
    + now rewrite skip_ws_newline_indent.
  - cbn [map]. rewrite concat_cons, !append_assoc.
    change ("," ++ ?t) with (String "," t).
    match goal with
    | |- Json.parse_items _ _ (_ ++ String "," ?t) = _ =>
        rewrite (parse_items_more value fuel _ x t
                   (Hvalue x (or_introl eq_refl) (String "," t) eq_refl))
    end.
    rewrite skip_ws_newline_indent.
    change (Json.dumps_at indent level y :: map (Json.dumps_at indent level) l)
      with (map (Json.dumps_at indent level) (y :: l)).
    assert (Hskip : forall t,
               Json.skip_ws (String.concat ("," ++ Json.newline_indent indent level)
                               (map (Json.dumps_at indent level) (y :: l)) ++ t)
               = String.concat ("," ++ Json.newline_indent indent level)
                   (map (Json.dumps_at indent level) (y :: l)) ++ t).
    { intros t. destruct l as [|z l].
      - cbn [map String.concat]. apply skip_ws_dumps.
      - cbn [map]. rewrite concat_cons, append_assoc. apply skip_ws_dumps. }
    rewrite Hskip. rewrite IH; [reflexivity| |simpl in *; lia].
    intros z Hz. apply Hvalue. now right.
Qed.

Lemma parse_value_object (fuel : nat) (text s : string) :
  Json.skip_ws text = String "034" s ->
  Json.parse_value (S fuel) (String "{" text)
  = match Json.parse_members (Json.parse_value fuel) fuel (String "034" s) with
    | Some (kvs, r) => Some (JDict (Json.dict_of_pairs kvs), r)
    | None => None
    end.
Proof. intros E. cbn [Json.parse_value]. now rewrite E. Qed.

Lemma parse_members_last (value : string -> option (json * string))
  (fuel : nat) (s : string) (k : string) (v : json) (r0 r1 r2 r' : string) :
  Json.parse_string s = Some (k, r0) ->
  Json.skip_ws r0 = String ":" r1 ->
  value (Json.skip_ws r1) = Some (v, r2) ->
  Json.skip_ws r2 = String "}" r' ->
  Json.parse_members value (S fuel) (String "034" s) = Some ([(k, v)], r').
Proof.
  intros E0 E1 E2 E3. cbn [Json.parse_members]. now rewrite E0, E1, E2, E3.
Qed.

Lemma parse_members_more (value : string -> option (json * string))
  (fuel : nat) (s : string) (k : string) (v : json) (r0 r1 r2 r' : string) :
  Json.parse_string s = Some (k, r0) ->
  Json.skip_ws r0 = String ":" r1 ->
  value (Json.skip_ws r1) = Some (v, r2) ->
  Json.skip_ws r2 = String "," r' ->
  Json.parse_members value (S fuel) (String "034" s)
  = match Json.parse_members value fuel (Json.skip_ws r') with
    | Some (kvs, r'') => Some ((k, v) :: kvs, r'')
    | None => None
    end.
Proof.
  intros E0 E1 E2 E3. cbn [Json.parse_members]. now rewrite E0, E1, E2, E3.
Qed.

(** A member of an object, followed by more text. *)
Lemma member_text (k a t : string) :
  (Json.encode_string k ++ ": " ++ a) ++ t
  = String "034" (Json.escape k
                    ++ String "034" (String ":" (String " " (a ++ t)))).
Proof.
  unfold Json.encode_string. cbn [append]. f_equal.
  rewrite !append_assoc. reflexivity.
Qed.

(** The members of an object, each at the indentation of the members, up
    to the closing brace at the indentation of the object. *)
Lemma parse_members_dumps (value : string -> option (json * string))
  (indent level closing : nat) (d : list (string * json)) :
  forall (kv : string * json) (rest : string) (fuel : nat),
  (forall y, In y (kv :: d) -> forall r, delimited r = true ->
             value (Json.dumps_at indent level (snd y) ++ r)
             = Some (snd y, r)) ->
  List.length d < fuel ->
  Json.parse_members value fuel
    (String.concat ("," ++ Json.newline_indent indent level)
       (map (fun kv => Json.encode_string (fst kv) ++ ": "
                         ++ Json.dumps_at indent level (snd kv)) (kv :: d))
     ++ Json.newline_indent indent closing ++ String "}" rest)
  = Some (kv :: d, rest).
Proof.
  set (member := fun kv : string * json =>
                   Json.encode_string (fst kv) ++ ": "
                     ++ Json.dumps_at indent level (snd kv)).
  induction d as [|y d IH]; intros [k v] rest fuel Hvalue Hfuel;
    (destruct fuel as [|fuel]; [inversion Hfuel|]).
  - cbn [map String.concat]. unfold member at 1. cbn [fst snd].
    rewrite member_text.
    eapply parse_members_last.
    + apply parse_string_escape.
    + reflexivity.
    + cbn [Json.skip_ws Json.is_ws]. rewrite skip_ws_dumps.
      apply (Hvalue (k, v)); [now left | reflexivity].
    + now rewrite skip_ws_newline_indent.
  - cbn [map]. rewrite concat_cons, (append_assoc (member (k, v))).
    unfold member at 1. cbn [fst snd].
    rewrite member_text, !append_assoc.
    change ("," ++ ?t) with (String "," t).
    erewrite parse_members_more.
    2: apply parse_string_escape.
    2: reflexivity.
    2: { cbn [Json.skip_ws Json.is_ws]. rewrite skip_ws_dumps.
         apply (Hvalue (k, v)); [now left | reflexivity]. }
    2: reflexivity.
    rewrite skip_ws_newline_indent.
    change (member y :: map member d) with (map member (y :: d)).
    assert (Hskip : forall t,
               Json.skip_ws
                 (String.concat (String "," (Json.newline_indent indent level))
                    (map member (y :: d)) ++ t)
               = String.concat (String "," (Json.newline_indent indent level))
                   (map member (y :: d)) ++ t).
    { intros t. destruct d as [|z d]; cbn [map String.concat];
        unfold member at 1; unfold Json.encode_string; reflexivity. }
    rewrite Hskip.
    change (String "," (Json.newline_indent indent level))
      with ("," ++ Json.newline_indent indent level).
    rewrite IH; [reflexivity| |simpl in *; lia].
    intros z Hz. apply Hvalue. now right.
Qed.

(** ** Dicts with unique keys *)

Lemma unique_strings_fresh (l1 l2 : list string) (k : string) :
  unique_strings (l1 ++ k :: l2)%list = true ->
  existsb (String.eqb k) l1 = false.
Proof.
  induction l1 as [|x l1 IH]; [reflexivity|].
  cbn [app unique_strings existsb]. intros H.
  apply andb_true_iff in H as [Hx H]. rewrite (IH H), orb_false_r.
  apply negb_true_iff in Hx. rewrite existsb_app in Hx.
  apply orb_false_iff in Hx as [_ Hx]. cbn [existsb] in Hx.
  apply orb_false_iff in Hx as [Hx _]. now rewrite String.eqb_sym.
Qed.

Lemma dict_set_fresh (k : string) (v : json) (d : list (string * json)) :
  existsb (String.eqb k) (map fst d) = false ->
  dict_set k v d = (d ++ [(k, v)])%list.
Proof.
  induction d as [|[k' v'] d IH]; [reflexivity|].
  cbn [map fst existsb dict_set app]. intros H.
  apply orb_false_iff in H as [-> H]. now rewrite (IH H).
Qed.

Lemma dict_of_pairs_unique (d : list (string * json)) :
  unique_strings (map fst d) = true -> Json.dict_of_pairs d = d.
Proof.
  unfold Json.dict_of_pairs.
  assert (H : forall acc,
             unique_strings (map fst (acc ++ d)%list) = true ->
             fold_left (fun d kv => dict_set (fst kv) (snd kv) d) d acc
             = (acc ++ d)%list).
  { induction d as [|[k v] d IH]; intros acc Hu.
    - now rewrite List.app_nil_r.
    - cbn [fold_left fst snd]. rewrite dict_set_fresh.
      + rewrite IH; rewrite <- List.app_assoc; [reflexivity | exact Hu].
      + rewrite map_app in Hu. cbn [map fst] in Hu.
        exact (unique_strings_fresh _ _ _ Hu). }
  intros Hu. exact (H [] Hu).
Qed.

(** ** Sizes *)

Lemma json_size_pos (v : json) : 1 <= json_size v.
Proof. destruct v; simpl; lia. Qed.

Lemma list_sum_bounds {A : Type} (size : A -> nat) (l : list A) :
  (forall x, 1 <= size x) ->
  List.length l <= list_sum (map size l)
  /\ forall x, In x l -> size x <= list_sum (map size l).
Proof.
  intros Hpos. induction l as [|y l [IHlen IHin]]; simpl.
  - split; [lia | contradiction].
  - pose proof (Hpos y). split; [lia|].
    intros x [->|Hx]; [lia|]. specialize (IHin x Hx). lia.
Qed.

Lemma length_concat (sep : string) (ls : list string) :
  list_sum (map String.length ls) <= String.length (String.concat sep ls).
Proof.
  induction ls as [|x [|y ls] IH]; simpl in *; try lia.
  rewrite !length_append. lia.
Qed.

Lemma list_sum_le {A : Type} (f g : A -> nat) (l : list A) :
  Forall (fun x => f x <= g x) l ->
  list_sum (map f l) <= list_sum (map g l).
Proof. induction 1; simpl; lia. Qed.

(** An encoded value has at least one character per value inside it. *)
Lemma json_size_dumps (indent : nat) (v : json) :
  forall level, json_size v <= String.length (Json.dumps_at indent level v).
Proof.
  induction v as [|b|n|s|l IH|d IH] using json_ind; intros level.
  - simpl. lia.
  - destruct b; simpl; lia.
  - destruct (of_Z_head n) as (c & s & E & _). simpl. rewrite E. simpl. lia.
  - simpl. lia.
  - destruct l as [|x l]; [simpl; lia|].
    cbn [Json.dumps_at json_size]. rewrite !length_append.
    pose proof (length_concat ("," ++ Json.newline_indent indent (S level))
                  (map (Json.dumps_at indent (S level)) (x :: l))) as Hc.
    rewrite map_map in Hc.
    assert (Hs : list_sum (map json_size (x :: l))
                 <= list_sum (map (fun y => String.length
                                     (Json.dumps_at indent (S level) y))
                                (x :: l))).
    { apply list_sum_le. eapply Forall_impl; [|exact IH]. intros y Hy.
      apply Hy. }
    simpl String.length at 1. lia.
  - destruct d as [|kv d]; [simpl; lia|].
    cbn [Json.dumps_at json_size]. rewrite !length_append.
    pose proof (length_concat ("," ++ Json.newline_indent indent (S level))
                  (map (fun kv => Json.encode_string (fst kv) ++ ": "
                                    ++ Json.dumps_at indent (S level) (snd kv))
                     (kv :: d))) as Hc.
    rewrite map_map in Hc.
    assert (Hs : list_sum (map (fun kv => json_size (snd kv)) (kv :: d))
                 <= list_sum
                      (map (fun y => String.length
                                       (Json.encode_string (fst y) ++ ": "
                                          ++ Json.dumps_at indent (S level)
                                               (snd y)))
                         (kv :: d))).
    { apply list_sum_le. eapply Forall_impl; [|exact IH]. intros y Hy.
      cbv beta in Hy. rewrite !length_append. specialize (Hy (S level)). lia. }
    simpl String.length at 1. lia.
Qed.

(** ** The decoder inverts the encoder *)

Lemma parse_value_items (fuel : nat) (text items : string) :
  Json.skip_ws text = items ->
  (forall r, items <> String "]" r) ->
  Json.parse_value (S fuel) (String "[" text)
  = match Json.parse_items (Json.parse_value fuel) fuel items with
    | Some (vs, r) => Some (JList vs, r)
    | None => None
    end.
Proof.
  intros E H. destruct items as [|c s].
  - cbn [Json.parse_value]. now rewrite E.
  - apply parse_value_array; [exact E|]. intros ->. now apply (H s).
Qed.

Lemma items_head (indent level : nat) (sep : string) (x : json)
  (l : list json) (t : string) :
  exists c s,
    String.concat sep (map (Json.dumps_at indent level) (x :: l)) ++ t
    = String c s
    /\ Json.is_ws c = false /\ c <> "]"%char.
Proof.
  destruct (dumps_at_head indent level x) as (c & s & E & Hws & Hc & _).
  destruct l as [|y l]; cbn [map String.concat]; rewrite E;
    eexists c, _; (split; [reflexivity | auto]).
Qed.

Lemma parse_value_dumps (v : json) :
  unique_keys v = true ->
  forall (indent level fuel : nat) (rest : string),
    json_size v <= fuel ->
    delimited rest = true ->
    Json.parse_value fuel (Json.dumps_at indent level v ++ rest)
    = Some (v, rest).
Proof.
  induction v as [|b|n|s|l IH|d IH] using json_ind;
    intros Hu indent level fuel rest Hfuel Hrest;
    (destruct fuel as [|fuel]; [pose proof (json_size_pos JNull);
                               simpl in Hfuel; lia|]).
  - reflexivity.
  - destruct b; reflexivity.
  - now apply parse_value_of_Z.
  - cbn [Json.dumps_at]. unfold Json.encode_string.
    cbn [append Json.parse_value]. rewrite append_assoc.
    cbn [append]. now rewrite parse_string_escape.
  - destruct l as [|x l]; [reflexivity|].
    cbn [Json.dumps_at]. rewrite !append_assoc.
    change ("[" ++ ?t) with (String "[" t).
    change ("]" ++ rest) with (String "]" rest).
    destruct (items_head indent (S level)
                ("," ++ Json.newline_indent indent (S level)) x l
                (Json.newline_indent indent level ++ String "]" rest))
      as (c & s & E & Hws & Hc).
    rewrite (parse_value_items fuel _ _ eq_refl).
    + rewrite skip_ws_newline_indent, E, (skip_ws_stop c s Hws), <- E.
      cbn [unique_keys] in Hu. cbn [json_size] in Hfuel.
      destruct (list_sum_bounds json_size (x :: l) json_size_pos)
        as [Hlen Hin].
      rewrite parse_items_dumps; [reflexivity| |simpl in *; lia].
      intros y Hy r Hr. rewrite Forall_forall in IH.
      apply IH; auto.
      * rewrite forallb_forall in Hu. auto.
      * specialize (Hin y Hy). lia.
    + intros r. rewrite skip_ws_newline_indent, E, (skip_ws_stop c s Hws).
      intros [= -> _]. now apply Hc.
  - destruct d as [|kv d]; [reflexivity|].
    cbn [Json.dumps_at]. rewrite !append_assoc.
    change ("{" ++ ?t) with (String "{" t).
    change ("}" ++ rest) with (String "}" rest).
    cbn [unique_keys] in Hu. apply andb_true_iff in Hu as [Hkeys Hu].
    cbn [json_size] in Hfuel.
    destruct (list_sum_bounds (fun kv : string * json => json_size (snd kv))
                (kv :: d) (fun kv => json_size_pos (snd kv)))
      as [Hlen Hin].
    set (member := fun kv : string * json =>
                     Json.encode_string (fst kv) ++ ": "
                       ++ Json.dumps_at indent (S level) (snd kv)).
    assert (Hhead : exists s,
               String.concat ("," ++ Json.newline_indent indent (S level))
                 (map member (kv :: d))
               ++ Json.newline_indent indent level ++ String "}" rest
               = String "034" s).
    { destruct d as [|kv' d]; cbn [map String.concat]; unfold member at 1;
        unfold Json.encode_string; eexists; reflexivity. }
    destruct Hhead as [s E].
    rewrite (parse_value_object fuel _ s).
    + rewrite <- E, parse_members_dumps;
        [now rewrite (dict_of_pairs_unique _ Hkeys)| |simpl in *; lia].
      intros y Hy r Hr. rewrite Forall_forall in IH.
      apply IH; auto.
      * rewrite forallb_forall in Hu. auto.
      * specialize (Hin y Hy). cbv beta in Hin. lia.
    + rewrite skip_ws_newline_indent, E. reflexivity.
Qed.

(** [json.loads] gives back what [json.dumps] wrote, also when a line
    break follows. *)
Lemma loads_dumps (indent : nat) (v : json) :
  unique_keys v = true ->
  Json.loads (Json.dumps indent v) = Some v
  /\ Json.loads (Json.dumps indent v ++ String "010" EmptyString) = Some v.
Proof.
  intros Hu. unfold Json.loads, Json.dumps.
  pose proof (json_size_dumps indent v 0) as Hsize.
  split.
  - rewrite <- (append_nil_r (Json.dumps_at indent 0 v)) at 2.
    rewrite skip_ws_dumps, (parse_value_dumps v Hu); auto.
  - rewrite skip_ws_dumps, (parse_value_dumps v Hu); auto.
    rewrite length_append. lia.
Qed.

(* ===================================================================== *)
(** * The formatter: JSON output *)
(* ===================================================================== *)



(* ===================================================================== *)
(** * Further properties of the HTTP layer *)
(* ===================================================================== *)

Lemma status_in_range (s : Z) :
  (400 <= s < 600)%Z -> ((400 <=? s)%Z && (s <? 600)%Z) = true.
Proof.
  intros [H1 H2]. apply andb_true_iff. split;
    [now apply Z.leb_le | now apply Z.ltb_lt].
Qed.

(** X1.  When the response is no error, [get_project_versions] returns
    the parsed body as it is, whatever its shape, after one request and
    without printing. *)
Theorem get_project_versions_success (net : network)
  (jira_url project_key username api_token : string)
  (resp : response) (v : json) :
  let endpoint :=
    strip_slash jira_url ++ "/rest/api/2/project/" ++ project_key
      ++ "/versions" in
  net endpoint (username, api_token) accept_json = Answer resp ->
  ((400 <=? status_code resp)%Z && (status_code resp <? 600)%Z) = false ->
  content resp = Document v ->
  get_project_versions net jira_url project_key username api_token
  = ([HttpGet endpoint (username, api_token)
        [("Accept", "application/json")]], Ret v).
Proof.
  intros endpoint Hnet Hs Hc.
  unfold get_project_versions, try_request, requests_get.
  change (versions_endpoint jira_url project_key) with endpoint.
  rewrite Hnet. cbv beta iota.
  pose proof (raise_for_status_spec resp) as Hr. rewrite Hs in Hr.
  rewrite Hr. unfold response_json. rewrite Hc. reflexivity.
Qed.

Lemma versions_of_sample_project :
  get_project_versions
    (Sample.always (mkResponse 200 "OK" (Document (JDict [])) Sample.versions_url))
    "https://jira.example.com/" "PROJ" "user" "secret"
  = ([HttpGet "https://jira.example.com/rest/api/2/project/PROJ/versions"
        ("user", "secret") [("Accept", "application/json")]],
     Ret (JDict [])).
Proof.
  apply (get_project_versions_success
           (Sample.always (mkResponse 200 "OK" (Document (JDict [])) Sample.versions_url))
           "https://jira.example.com/" "PROJ" "user" "secret"
           (mkResponse 200 "OK" (Document (JDict [])) Sample.versions_url) (JDict []));
    reflexivity.
Defined.

(** X2.  After a response with a status from 400 to 599
    [get_project_versions] prints [HTTP Error: ...], then one more line
    for 401, for 403 and for 404, the last naming the project key, and
    leaves with [sys.exit(1)]; the body of the response is not read. *)
Theorem versions_http_error (net : network)
  (jira_url project_key username api_token : string) (resp : response) :
  let endpoint := versions_endpoint jira_url project_key in
  net endpoint (username, api_token) accept_json = Answer resp ->
  (400 <= status_code resp < 600)%Z ->
  exists msg,
    raise_for_status resp = Raise (HTTPError msg)
    /\ get_project_versions net jira_url project_key username api_token
       = (HttpGet endpoint (username, api_token) accept_json
            :: Print ("HTTP Error: " ++ msg)
            :: map Print
                 (if (status_code resp =? 401)%Z then
                    ["Authentication failed. Please check your username and API token."]
                  else if (status_code resp =? 403)%Z then
                    ["You don't have permission to access this resource."]
                  else if (status_code resp =? 404)%Z then
                    ["Project '" ++ project_key ++ "' not found."]
                  else []),
          Raise (SystemExit 1)).
Proof.
  intros endpoint Hnet Hs.
  pose proof (raise_for_status_spec resp) as Hr.
  rewrite (status_in_range _ Hs) in Hr. destruct Hr as [msg Hr].
  exists msg. split; [exact Hr|].
  unfold get_project_versions, try_request, requests_get.
  fold endpoint. rewrite Hnet. cbv beta iota. rewrite Hr. cbn.
  destruct (status_code resp =? 401)%Z;
    [|destruct (status_code resp =? 403)%Z;
      [|destruct (status_code resp =? 404)%Z]]; reflexivity.
Qed.

Lemma project_not_found :
  exists msg,
    raise_for_status Sample.not_found = Raise (HTTPError msg)
    /\ get_project_versions (Sample.always Sample.not_found)
         Sample.base "PROJ" "user" "secret"
       = (HttpGet (versions_endpoint Sample.base "PROJ") ("user", "secret")
            accept_json
            :: Print ("HTTP Error: " ++ msg)
            :: map Print ["Project 'PROJ' not found."],
          Raise (SystemExit 1)).
Proof.
  apply (versions_http_error (Sample.always Sample.not_found)
           Sample.base "PROJ" "user" "secret" Sample.not_found).
  - reflexivity.
  - simpl. lia.
Defined.

(** X3.  After a response with a status from 400 to 599
    [get_issues_for_version] prints [HTTP Error: ...], then one more
    line for 401, for 403 and for 400, and leaves with [sys.exit(1)];
    a 404 has no line of its own here. *)
Theorem issues_http_error (net : network)
  (jira_url project_key version_id username api_token : string)
  (resp : response) :
  let endpoint := issues_endpoint jira_url project_key version_id in
  net endpoint (username, api_token) accept_json = Answer resp ->
  (400 <= status_code resp < 600)%Z ->
  exists msg,
    raise_for_status resp = Raise (HTTPError msg)
    /\ get_issues_for_version net jira_url project_key version_id
         username api_token
       = (HttpGet endpoint (username, api_token) accept_json
            :: Print ("HTTP Error: " ++ msg)
            :: map Print
                 (if (status_code resp =? 401)%Z then
                    ["Authentication failed. Please check your username and API token."]
                  else if (status_code resp =? 403)%Z then
                    ["You don't have permission to access this resource."]
                  else if (status_code resp =? 400)%Z then
                    ["Bad request: Invalid JQL query or parameters."]
                  else []),
          Raise (SystemExit 1)).
Proof.
  intros endpoint Hnet Hs.
  pose proof (raise_for_status_spec resp) as Hr.
  rewrite (status_in_range _ Hs) in Hr. destruct Hr as [msg Hr].
  exists msg. split; [exact Hr|].
  unfold get_issues_for_version, try_request, requests_get.
  fold endpoint. rewrite Hnet. cbv beta iota. rewrite Hr. cbn.
  destruct (status_code resp =? 401)%Z;
    [|destruct (status_code resp =? 403)%Z;
      [|destruct (status_code resp =? 400)%Z]]; reflexivity.
Qed.

Lemma search_not_found :
  exists msg,
    raise_for_status Sample.search_not_found = Raise (HTTPError msg)
    /\ get_issues_for_version (Sample.always Sample.search_not_found)
         Sample.base "PROJ" "10001" "user" "secret"
       = (HttpGet (issues_endpoint Sample.base "PROJ" "10001")
            ("user", "secret") accept_json
            :: Print ("HTTP Error: " ++ msg) :: map Print [],
          Raise (SystemExit 1)).
Proof.
  apply (issues_http_error (Sample.always Sample.search_not_found)
           Sample.base "PROJ" "10001" "user" "secret"
           Sample.search_not_found).
  - reflexivity.
  - simpl. lia.
Defined.

(** X4.  When [requests.get] raises, both fetch functions print one
    line and leave with [sys.exit(1)]: the connection message for a
    [ConnectionError], also for a [ConnectTimeout], which the clause of
    [ConnectionError] catches before the clause of [Timeout]; the timeout
    message for another [Timeout]; [Error: ...] with the text of the
    exception otherwise. *)
Theorem request_exception_diagnostic (net : network)
  (jira_url project_key version_id username api_token : string)
  (cls : requests_exn) (msg : string) :
  let line :=
    match cls with
    | ConnectionError | ConnectTimeout =>
        "Connection Error: Failed to connect to the Jira server."
    | Timeout => "Timeout Error: The request timed out."
    | RequestException => "Error: " ++ msg
    end in
  (net (versions_endpoint jira_url project_key) (username, api_token)
     accept_json = Failure cls msg ->
   get_project_versions net jira_url project_key username api_token
   = ([HttpGet (versions_endpoint jira_url project_key)
         (username, api_token) accept_json; Print line],
      Raise (SystemExit 1)))
  /\ (net (issues_endpoint jira_url project_key version_id)
        (username, api_token) accept_json = Failure cls msg ->
      get_issues_for_version net jira_url project_key version_id
        username api_token
      = ([HttpGet (issues_endpoint jira_url project_key version_id)
            (username, api_token) accept_json; Print line],
         Raise (SystemExit 1))).
Proof.
  intros line. split; intros Hnet.
  - unfold get_project_versions, try_request, requests_get. rewrite Hnet.
    destruct cls; reflexivity.
  - unfold get_issues_for_version, try_request, requests_get. rewrite Hnet.
    destruct cls; reflexivity.
Qed.

Lemma connect_timeout_is_connection_error :
  get_project_versions (fun _ _ _ => Failure ConnectTimeout "timed out")
    Sample.base "PROJ" "user" "secret"
  = ([HttpGet (versions_endpoint Sample.base "PROJ") ("user", "secret")
        accept_json;
      Print "Connection Error: Failed to connect to the Jira server."],
     Raise (SystemExit 1)).
Proof.
  apply (proj1 (request_exception_diagnostic
                  (fun _ _ _ => Failure ConnectTimeout "timed out")
                  Sample.base "PROJ" "7" "user" "secret"
                  ConnectTimeout "timed out")).
  reflexivity.
Defined.

(** X5.  When the body of a successful response of the search endpoint
    is JSON but not an object, [.get("issues", [])] raises an
    [AttributeError] that no clause handles: the run of [main] is the one
    request, prints nothing and ends with exit status 1. *)
Theorem issues_body_not_an_object (net : network) (a : args)
  (resp : response) (v : json) :
  release_id_given a && list_issues a = true ->
  net (request_url a) (user a, token a) accept_json = Answer resp ->
  ((400 <=? status_code resp)%Z && (status_code resp <? 600)%Z) = false ->
  content resp = Document v ->
  is_object v = false ->
  main net a
  = ([HttpGet (request_url a) (user a, token a) accept_json],
     Raise AttributeError)
  /\ exit_status (main net a) = 1%Z.
Proof.
  intros Hw Hnet Hs Hc Hv.
  assert (E : main net a
              = ([HttpGet (request_url a) (user a, token a) accept_json],
                 Raise AttributeError)).
  { rewrite main_branches. rewrite request_url_branches in *.
    rewrite Hw in *.
    destruct (get_issues_for_version_run net (url a) (project_key a)
                (passed_release_id a) (user a) (token a))
      as (t & res & E & _ & _ & Hok).
    cbv zeta in Hok. rewrite Hnet in Hok.
    destruct Hok as (resp' & v' & [= <-] & Hc' & -> & ->).
    { unfold is_error. rewrite Hs, Hc. reflexivity. }
    rewrite Hc in Hc'. injection Hc' as <-. rewrite E.
    destruct v; try discriminate; reflexivity. }
  split; [exact E | now rewrite E].
Qed.

Lemma issues_body_is_a_list :
  main (Sample.always Sample.no_versions) Sample.issues_of_release
  = ([HttpGet (request_url Sample.issues_of_release) ("user", "secret")
        accept_json], Raise AttributeError)
  /\ exit_status (main (Sample.always Sample.no_versions)
                    Sample.issues_of_release) = 1%Z.
Proof.
  apply (issues_body_not_an_object (Sample.always Sample.no_versions)
           Sample.issues_of_release Sample.no_versions (JList []));
    reflexivity.
Defined.

(** Once the arguments are parsed, a run begins with its one GET
    request; whatever follows is printing. *)
Lemma main_request_first (net : network) (a : args) :
  exists t,
    fst (main net a)
    = HttpGet (request_url a) (user a, token a)
        [("Accept", "application/json")] :: t
    /\ requested t = []
    /\ t = map Print (printed t).
Proof.
  assert (H : exists t,
             fst (main net a)
             = HttpGet (request_url a) (user a, token a) accept_json :: t
             /\ requested t = []).
  { pose proof (main_requested net a) as Hreq.
    rewrite main_branches, request_url_branches in *.
    destruct (release_id_given a && list_issues a).
    - destruct (get_issues_for_version_run net (url a) (project_key a)
                  (passed_release_id a) (user a) (token a))
        as (t & res & E & Ht & _).
      rewrite E in *. destruct res as [v|e].
      + rewrite bind_ret in *. cbn [fst] in *. eexists. split; [reflexivity|].
        cbn [requested app] in Hreq. now injection Hreq.
      + rewrite bind_raise. eexists. split; [reflexivity | exact Ht].
    - destruct (get_project_versions_run net (url a) (project_key a)
                  (user a) (token a)) as (t & res & E & Ht & _).
      rewrite E in *. destruct res as [v|e].
      + rewrite bind_ret in *. cbn [fst] in *. eexists. split; [reflexivity|].
        cbn [requested app] in Hreq. now injection Hreq.
      + rewrite bind_raise. eexists. split; [reflexivity | exact Ht]. }
  destruct H as (t & E & Ht). exists t. split; [exact E|].
  split; [exact Ht | now apply quiet_is_prints].
Qed.

(** X6.  A run sends at most one request.  When [parse_args] returns,
    the run begins with its one GET request, sent with the credentials
    of the command line and the header [Accept: application/json], and
    whatever follows is printing; after a usage error nothing is sent
    or printed, and for [--help] the help is printed and nothing is
    sent. *)
Theorem program_requests (net : network) (p : parse_outcome) :
  List.length (requested (fst (program net p))) <= 1
  /\ match p with
     | Parsed a =>
         exists t,
           fst (program net p)
           = HttpGet (request_url a) (user a, token a)
               [("Accept", "application/json")] :: t
           /\ requested t = []
           /\ t = map Print (printed t)
     | UsageError => fst (program net p) = []
     | HelpRequested help => fst (program net p) = [Print help]
     end.
Proof.
  destruct p as [a| |help]; cbn [program].
  - destruct (main_request_first net a) as (t & E & Ht & Hp).
    split; [|eauto]. rewrite E. cbn [requested]. rewrite Ht. simpl. lia.
  - split; [simpl; lia | reflexivity].
  - split; [simpl; lia | reflexivity].
Qed.

(** X7.  With a release id and [--list-issues], in text mode, when the
    search answers with an object whose [issues] is absent, an empty
    list or another false value, the run prints the one line
    [No issues found for this release.] and ends with exit status 0. *)
Theorem no_matching_issues (net : network) (a : args)
  (resp : response) (d : list (string * json)) :
  release_id_given a && list_issues a = true ->
  String.eqb (format a) "json" = false ->
  net (request_url a) (user a, token a) accept_json = Answer resp ->
  ((400 <=? status_code resp)%Z && (status_code resp <? 600)%Z) = false ->
  content resp = Document (JDict d) ->
  truthy (match dict_get "issues" d with
          | Some issues => issues
          | None => JList []
          end) = false ->
  main net a
  = ([HttpGet (request_url a) (user a, token a) accept_json;
      Print "No issues found for this release."], Ret tt)
  /\ exit_status (main net a) = 0%Z.
Proof.
  intros Hw Hf Hnet Hs Hc Hempty.
  assert (E : main net a
              = ([HttpGet (request_url a) (user a, token a) accept_json;
                  Print "No issues found for this release."], Ret tt)).
  { rewrite main_branches. rewrite request_url_branches in *.
    rewrite Hw in *.
    destruct (get_issues_for_version_run net (url a) (project_key a)
                (passed_release_id a) (user a) (token a))
      as (t & res & E & _ & _ & Hok).
    cbv zeta in Hok. rewrite Hnet in Hok.
    destruct Hok as (resp' & v' & [= <-] & Hc' & -> & ->).
    { unfold is_error. rewrite Hs, Hc. reflexivity. }
    rewrite Hc in Hc'. injection Hc' as <-. rewrite E.
    cbn [Py.get]. rewrite bind_ret. unfold display_issues.
    rewrite Hf, Hempty. reflexivity. }
  split; [exact E | now rewrite E].
Qed.

Lemma release_without_issues :
  main (Sample.always (Sample.found (JList []))) Sample.issues_of_release
  = ([HttpGet (request_url Sample.issues_of_release) ("user", "secret")
        accept_json;
      Print "No issues found for this release."], Ret tt)
  /\ exit_status (main (Sample.always (Sample.found (JList [])))
                    Sample.issues_of_release) = 0%Z.
Proof.
  apply (no_matching_issues (Sample.always (Sample.found (JList [])))
           Sample.issues_of_release (Sample.found (JList []))
           [("total", JNum 1); ("issues", JList [])]);
    reflexivity.
Defined.

(** X8.  Listing the versions with [--format json]: when the response is
    no error, the run prints the parsed body re-encoded with
    [indent=2], whatever its shape, and ends with exit status 0; decoding
    standard output gives the body back. *)
Theorem versions_as_json (net : network) (a : args)
  (resp : response) (v : json) :
  release_id_given a && list_issues a = false ->
  format a = "json" ->
  net (request_url a) (user a, token a) accept_json = Answer resp ->
  ((400 <=? status_code resp)%Z && (status_code resp <? 600)%Z) = false ->
  content resp = Document v ->
  unique_keys v = true ->
  main net a
  = ([HttpGet (request_url a) (user a, token a) accept_json;
      Print (Json.dumps 2 v)], Ret tt)
  /\ exit_status (main net a) = 0%Z
  /\ Json.loads (stdout (fst (main net a))) = Some v.
Proof.
  intros Hw Hf Hnet Hs Hc Hu.
  assert (E : main net a
              = ([HttpGet (request_url a) (user a, token a) accept_json;
                  Print (Json.dumps 2 v)], Ret tt)).
  { rewrite main_branches. rewrite request_url_branches in *.
    rewrite Hw in *.
    destruct (get_project_versions_run net (url a) (project_key a)
                (user a) (token a)) as (t & res & E & _ & _ & Hok).
    cbv zeta in Hok. rewrite Hnet in Hok.
    destruct Hok as (resp' & v' & [= <-] & Hc' & -> & ->).
    { unfold is_error. rewrite Hs, Hc. reflexivity. }
    rewrite Hc in Hc'. injection Hc' as <-. rewrite E.
    rewrite bind_ret. unfold display_versions. rewrite Hf. reflexivity. }
  split; [exact E|]. split; [now rewrite E|].
  rewrite E. cbn [fst stdout]. exact (proj2 (loads_dumps 2 v Hu)).
Qed.

Lemma sample_versions_as_json :
  main (Sample.always
          (mkResponse 200 "OK" (Document (JList [Sample.released_version]))
              Sample.versions_url))
    (mkArgs "PROJ" Sample.base "user" "secret" "json" None false)
  = ([HttpGet "https://jira.example.com/rest/api/2/project/PROJ/versions"
        ("user", "secret") accept_json;
      Print (Json.dumps 2 (JList [Sample.released_version]))], Ret tt).
Proof.
  apply (versions_as_json
           (Sample.always
              (mkResponse 200 "OK"
                 (Document (JList [Sample.released_version]))
                 Sample.versions_url))
           (mkArgs "PROJ" Sample.base "user" "secret" "json" None false)
           (mkResponse 200 "OK" (Document (JList [Sample.released_version]))
              Sample.versions_url)
           (JList [Sample.released_version]));
    reflexivity.
Defined.

(** X9.  One trailing slash is removed and no more: for a base URL given
    with two trailing slashes the request path starts with two
    slashes. *)
Theorem second_slash_is_kept (net : network)
  (base project_key version_id username api_token : string) :
  requested (fst (get_project_versions net (base ++ "//") project_key
                    username api_token))
  = [base ++ "//rest/api/2/project/" ++ project_key ++ "/versions"]
  /\ requested (fst (get_issues_for_version net (base ++ "//") project_key
                       version_id username api_token))
     = [base ++ "//rest/api/2/search?jql="
          ++ Url.quote (jql_query project_key version_id)
          ++ "&maxResults=1000"].
Proof.
  assert (Hs : strip_slash (base ++ "//") = base ++ "/").
  { change "//" with ("/" ++ "/"). rewrite <- append_assoc.
    apply strip_slash_app. }
  split.
  - destruct (get_project_versions_run net (base ++ "//") project_key
                username api_token) as (t & res & -> & Ht & _).
    cbn [fst requested]. rewrite Ht. unfold versions_endpoint.
    now rewrite Hs, append_assoc.
  - destruct (get_issues_for_version_run net (base ++ "//") project_key
                version_id username api_token) as (t & res & -> & Ht & _).
    cbn [fst requested]. rewrite Ht. unfold issues_endpoint.
    now rewrite Hs, append_assoc.
Qed.

(* ===================================================================== *)
(** * Further properties of the formatter *)
(* ===================================================================== *)

Lemma length_ljust (w : nat) (s : string) :
  String.length (Str.ljust w s) = Nat.max w (String.length s).
Proof. unfold Str.ljust. rewrite length_append, length_replicate. lia. Qed.

(** X10.  The table of [display_issues]: the header and every row
    start with four left-aligned columns of widths 15, 15, 15 and 10,
    the text first and spaces after it, each followed by one space; a
    longer cell is kept whole and shifts what follows; when every cell
    fits, the summary begins at offset 59, where the header has
    [Summary]. *)
Theorem issue_columns_width (issues : list json) :
  issues <> [] ->
  forallb issue_ok issues = true ->
  let pad := fun (w : nat) (s : string) =>
    s ++ Str.replicate (w - String.length s) " " in
  let columns := fun key type status priority : string =>
    pad 15 key ++ " " ++ pad 15 type ++ " " ++ pad 15 status ++ " "
      ++ pad 10 priority ++ " " in
  let cell := fun (d : list (string * json)) (k : string) =>
    text_or "N/A" (sub "name" (sub k (dict_get "fields" d))) in
  let row := fun issue : json =>
    match issue with
    | JDict d =>
        columns (text_or "N/A" (dict_get "key" d)) (cell d "issuetype")
          (cell d "status") (cell d "priority")
          ++ shown_summary
               (text_or "N/A" (sub "summary" (dict_get "fields" d)))
    | _ => EmptyString
    end in
  display_issues (JList issues) "text"
  = (map Print
       (("Found " ++ Str.of_nat (List.length issues) ++ " issues:")
          :: Str.replicate 120 "-"
          :: (columns "Key" "Type" "Status" "Priority" ++ "Summary")
          :: Str.replicate 120 "-"
          :: map row issues),
     Ret tt)
  /\ (forall key type status priority,
        String.length (columns key type status priority)
        = Nat.max 15 (String.length key) + 1
          + Nat.max 15 (String.length type) + 1
          + Nat.max 15 (String.length status) + 1
          + Nat.max 10 (String.length priority) + 1)
  /\ (forall key type status priority,
        String.length key <= 15 -> String.length type <= 15 ->
        String.length status <= 15 -> String.length priority <= 10 ->
        String.length (columns key type status priority) = 59)
  /\ String.length (columns "Key" "Type" "Status" "Priority") = 59.
Proof.
  intros Hne Hok pad columns cell row.
  assert (Hpad : forall w s, String.length (pad w s)
                             = Nat.max w (String.length s)).
  { intros w s. exact (length_ljust w s). }
  assert (Hlen : forall key type status priority,
             String.length (columns key type status priority)
             = Nat.max 15 (String.length key) + 1
               + Nat.max 15 (String.length type) + 1
               + Nat.max 15 (String.length status) + 1
               + Nat.max 10 (String.length priority) + 1).
  { intros. unfold columns. rewrite !length_append, !Hpad.
    simpl String.length. lia. }
  split; [|split; [exact Hlen|split; [|reflexivity]]].
  - rewrite (display_issues_rows issues Hne Hok). do 6 f_equal.
    apply map_ext_in. intros issue Hin.
    rewrite forallb_forall in Hok. specialize (Hok issue Hin).
    destruct issue as [| | | |l|d]; try discriminate.
    unfold row, columns, cell, pad, issue_line, issue_columns, summary_of.
    unfold Str.ljust. now rewrite !append_assoc.
  - intros. rewrite Hlen. lia.
Qed.

Lemma columns_of_sample_issue :
  display_issues (JList [Sample.no_priority]) "text"
  = (map Print
       ["Found 1 issues:";
        Str.replicate 120 "-";
        "Key             Type            Status          Priority   Summary";
        Str.replicate 120 "-";
        "PROJ-1          Bug             Done            N/A        Crash on start"],
     Ret tt).
Proof.
  exact (proj1 (issue_columns_width [Sample.no_priority]
                  ltac:(discriminate) eq_refl)).
Defined.

(** X11.  The table of [display_versions]: the header and every row
    start with four left-aligned columns of widths 10, 20, 10 and 12,
    the text first and spaces after it, each followed by one space; a
    longer id, name or date is kept whole and shifts what follows; when
    they fit, the description, printed whole, begins at offset 56, where
    the header has [Description]. *)
Theorem version_columns_width (versions : list json) :
  versions <> [] ->
  forallb version_ok versions = true ->
  let pad := fun (w : nat) (s : string) =>
    s ++ Str.replicate (w - String.length s) " " in
  let columns := fun id name released date : string =>
    pad 10 id ++ " " ++ pad 20 name ++ " " ++ pad 10 released ++ " "
      ++ pad 12 date ++ " " in
  let row := fun version : json =>
    match version with
    | JDict d =>
        columns (text_or "N/A" (dict_get "id" d))
          (text_or "N/A" (dict_get "name" d))
          (match dict_get "released" d with
           | Some flag => if truthy flag then "Yes" else "No"
           | None => "No"
           end)
          (text_or "N/A" (dict_get "releaseDate" d))
          ++ match dict_get "description" d with
             | Some text => Py.str text
             | None => EmptyString
             end
    | _ => EmptyString
    end in
  (exists sorted_versions,
     Permutation versions sorted_versions
     /\ display_versions (JList versions) "text"
        = (map Print
             (("Found " ++ Str.of_nat (List.length versions) ++ " releases:")
                :: Str.replicate 80 "-"
                :: (columns "ID" "Name" "Released" "Release Date"
                      ++ "Description")
                :: Str.replicate 80 "-"
                :: map row sorted_versions),
           Ret tt))
  /\ (forall id name released date,
        String.length (columns id name released date)
        = Nat.max 10 (String.length id) + 1
          + Nat.max 20 (String.length name) + 1
          + Nat.max 10 (String.length released) + 1
          + Nat.max 12 (String.length date) + 1)
  /\ (forall id name released date,
        String.length id <= 10 -> String.length name <= 20 ->
        String.length released <= 10 -> String.length date <= 12 ->
        String.length (columns id name released date) = 56)
  /\ String.length (columns "ID" "Name" "Released" "Release Date") = 56.
Proof.
  intros Hne Hok pad columns row.
  assert (Hpad : forall w s, String.length (pad w s)
                             = Nat.max w (String.length s)).
  { intros w s. exact (length_ljust w s). }
  assert (Hlen : forall id name released date,
             String.length (columns id name released date)
             = Nat.max 10 (String.length id) + 1
               + Nat.max 20 (String.length name) + 1
               + Nat.max 10 (String.length released) + 1
               + Nat.max 12 (String.length date) + 1).
  { intros. unfold columns. rewrite !length_append, !Hpad.
    simpl String.length. lia. }
  split; [|split; [exact Hlen|split; [|reflexivity]]].
  - destruct (sorted_versions_stable versions Hok) as (s & E & Hp & _).
    assert (Hoks : forallb version_ok s = true).
    { apply forallb_forall. intros x Hx. rewrite forallb_forall in Hok.
      apply Hok. now apply (Permutation_in x (Permutation_sym Hp)). }
    exists s. split; [exact Hp|].
    rewrite (display_versions_rows versions s Hne E Hoks). do 6 f_equal.
    apply map_ext_in. intros version Hin.
    rewrite forallb_forall in Hoks. specialize (Hoks version Hin).
    destruct version as [| | | |l|d]; try discriminate.
    unfold row, columns, pad, version_line. unfold Str.ljust.
    now rewrite !append_assoc.
  - intros. rewrite Hlen. lia.
Qed.

Lemma columns_of_sample_version :
  exists sorted_versions,
    Permutation [Sample.released_version] sorted_versions
    /\ display_versions (JList [Sample.released_version]) "text"
       = (map Print
            ("Found 1 releases:"
               :: Str.replicate 80 "-"
               :: "ID         Name                 Released   Release Date Description"
               :: Str.replicate 80 "-"
               :: map version_line sorted_versions),
          Ret tt).
Proof.
  destruct (proj1 (version_columns_width [Sample.released_version]
                     ltac:(discriminate) eq_refl)) as (s & Hp & E).
  exists s. split; [exact Hp|]. rewrite E. do 6 f_equal.
  apply map_ext_in. intros v Hv.
  pose proof (Permutation_in v (Permutation_sym Hp) Hv) as [<-|[]].
  vm_compute. reflexivity.
Defined.

Lemma leb_not_ltb (a b : string) :
  String.leb a b = true -> String.ltb b a = false.
Proof.
  unfold String.ltb, String.leb. rewrite (String.compare_antisym b a).
  now destruct (String.compare a b).
Qed.

Lemma ascending_tail (key : json -> string) (x : json) (l : list json) :
  ascending key (x :: l) = true -> ascending key l = true.
Proof.
  destruct l as [|y l]; [reflexivity|].
  cbn [ascending]. intros H. now apply andb_true_iff in H as [_ H].
Qed.

Lemma sort_keyed_ascending (key : json -> string) (l : list json) :
  ascending key l = true ->
  Py.sort_keyed (map (keyed key) l) = Ret (map (keyed key) l).
Proof.
  induction l as [|x l IH]; [reflexivity|]. intros H.
  cbn [map Py.sort_keyed]. rewrite (IH (ascending_tail key x l H)).
  rewrite outcome_bind_ret. destruct l as [|y l]; [reflexivity|].
  cbn [ascending] in H. apply andb_true_iff in H as [Hxy _].
  cbn [map Py.insert_keyed keyed fst].
  change (Py.lt (JStr (key y)) (JStr (key x)))
    with (Ret (String.ltb (key y) (key x))).
  now rewrite outcome_bind_ret, (leb_not_ltb _ _ Hxy).
Qed.

(** X12.  When the versions arrive in ascending order of release date,
    those without a date last, the table has them in the order they
    arrived. *)
Theorem sorted_input_keeps_order (versions : list json) :
  versions <> [] ->
  forallb version_ok versions = true ->
  ascending effective_date versions = true ->
  Py.sorted release_key (JList versions) = Ret versions
  /\ display_versions (JList versions) "text"
     = (map Print
          (("Found " ++ Str.of_nat (List.length versions) ++ " releases:")
             :: Str.replicate 80 "-" :: versions_header
             :: Str.replicate 80 "-" :: map version_line versions),
        Ret tt).
Proof.
  intros Hne Hok Hasc.
  assert (E : Py.sorted release_key (JList versions) = Ret versions).
  { unfold Py.sorted. cbn [Py.iter]. rewrite outcome_bind_ret.
    rewrite (keys_of_versions versions Hok), outcome_bind_ret.
    rewrite (sort_keyed_ascending effective_date versions Hasc).
    rewrite outcome_bind_ret. cbn [ret Monad_outcome].
    now rewrite map_snd_keyed. }
  split; [exact E|]. now apply display_versions_rows.
Qed.

Lemma sorted_sample_keeps_order :
  Py.sorted release_key
    (JList [Sample.early_version; Sample.released_version;
            Sample.planned_version; Sample.undated_version])
  = Ret [Sample.early_version; Sample.released_version;
         Sample.planned_version; Sample.undated_version].
Proof.
  apply (proj1 (sorted_input_keeps_order
                  [Sample.early_version; Sample.released_version;
                   Sample.planned_version; Sample.undated_version]
                  ltac:(discriminate) eq_refl eq_refl)).
Defined.

(* ===================================================================== *)
(** * Malformed entries in text mode *)
(* ===================================================================== *)

Lemma get_dict (d : list (string * json)) (k : string) (default : json) :
  Py.get (JDict d) k default
  = Ret (match dict_get k d with Some v => v | None => default end).
Proof. reflexivity. Qed.

Lemma format_left_raises (w : nat) (v : json) (e : py_exn) :
  Py.format_left w v = Raise e -> e = TypeError.
Proof. destruct v; simpl; congruence. Qed.

(** A loop over rows stops with an exception when one row raises. *)
Lemma for_each_raises (row : json -> outcome string) (x : json)
  (xs : list json) :
  In x xs ->
  (exists e, row x = Raise e) ->
  exists t e,
    for_each xs (fun y => r <- lift (row y) ;; print r) = (t, Raise e).
Proof.
  intros Hin [e Hx]. induction xs as [|y xs IH]; [contradiction|].
  cbn [for_each]. destruct (row y) as [r|e'] eqn:Hy.
  - destruct Hin as [->|Hin]; [congruence|].
    destruct (IH Hin) as (t & e' & E). rewrite E.
    eexists _, _. reflexivity.
  - eexists _, _. reflexivity.
Qed.

Lemma insert_keyed_perm (kx : json * json) (l r : list (json * json)) :
  Py.insert_keyed kx l = Ret r -> Permutation (kx :: l) r.
Proof.
  revert r. induction l as [|ky l IH]; intros r; cbn [Py.insert_keyed].
  - intros [= <-]. reflexivity.
  - destruct (Py.lt (fst ky) (fst kx)) as [[|]|e]; cbn; try discriminate.
    + destruct (Py.insert_keyed kx l) as [r'|e]; cbn; try discriminate.
      intros [= <-]. rewrite perm_swap. constructor. now apply IH.
    + intros [= <-]. reflexivity.
Qed.

Lemma sort_keyed_perm (l s : list (json * json)) :
  Py.sort_keyed l = Ret s -> Permutation l s.
Proof.
  revert s. induction l as [|kx l IH]; intros s; cbn [Py.sort_keyed].
  - intros [= <-]. reflexivity.
  - destruct (Py.sort_keyed l) as [s'|e]; cbn; try discriminate.
    intros H. apply insert_keyed_perm in H. rewrite <- H.
    constructor. now apply IH.
Qed.

Lemma map_outcome_keys (key : json -> outcome json) (l : list json)
  (ks : list (json * json)) :
  map_outcome (fun v => k <- key v ;; ret (k, v)) l = Ret ks ->
  map snd ks = l.
Proof.
  revert ks. induction l as [|v l IH]; intros ks; cbn [map_outcome].
  - intros [= <-]. reflexivity.
  - destruct (key v) as [k|e]; cbn; try discriminate.
    destruct (map_outcome _ l) as [ks'|e]; cbn; try discriminate.
    intros [= <-]. cbn. now rewrite (IH ks' eq_refl).
Qed.

(** Whatever the keys, a [sorted] that returns has permuted its input. *)
Lemma sorted_perm (key : json -> outcome json) (l s : list json) :
  Py.sorted key (JList l) = Ret s -> Permutation l s.
Proof.
  unfold Py.sorted. cbn [Py.iter]. rewrite outcome_bind_ret.
  destruct (map_outcome _ l) as [ks|e] eqn:Hk; cbn; try discriminate.
  destruct (Py.sort_keyed ks) as [ss|e] eqn:Hs; cbn; try discriminate.
  intros [= <-]. rewrite <- (map_outcome_keys key l ks Hk).
  apply Permutation_map. now apply sort_keyed_perm.
Qed.

Lemma version_row_null_date (d : list (string * json)) :
  dict_get "releaseDate" d = Some JNull ->
  version_row (JDict d) = Raise TypeError.
Proof.
  intros H. unfold version_row. rewrite !get_dict, H, !outcome_bind_ret.
  destruct (Py.format_left 10 _) as [c1|e] eqn:E1;
    [|now rewrite (format_left_raises _ _ _ E1)].
  rewrite outcome_bind_ret.
  destruct (Py.format_left 20 _) as [c2|e] eqn:E2;
    [|now rewrite (format_left_raises _ _ _ E2)].
  reflexivity.
Qed.

(** X13.  A version whose [releaseDate] is [null] sorts like a version
    without a date, and its row raises a [TypeError] at the date column:
    with such a version anywhere in the list, [display_versions] in text
    mode ends with an exception. *)
Theorem null_release_date_fails (versions : list json)
  (d : list (string * json)) :
  In (JDict d) versions ->
  dict_get "releaseDate" d = Some JNull ->
  release_key (JDict d) = Ret (JStr "9999-99-99")
  /\ version_row (JDict d) = Raise TypeError
  /\ exists t e, display_versions (JList versions) "text" = (t, Raise e).
Proof.
  intros Hin Hd. split; [|split].
  - unfold release_key. now rewrite !get_dict, Hd.
  - now apply version_row_null_date.
  - unfold display_versions.
    change (String.eqb "text" "json") with false. cbv iota.
    destruct versions as [|v versions]; [contradiction|].
    change (negb (truthy (JList (v :: versions)))) with false. cbv iota.
    destruct (Py.sorted release_key (JList (v :: versions))) as [s|e] eqn:Hs.
    + rewrite bind_lift_ret.
      change (Py.len (JList (v :: versions)))
        with (Ret (A := nat) (List.length (v :: versions))).
      rewrite bind_lift_ret, !bind_print.
      destruct (for_each_raises version_row (JDict d) s) as (t & e & E).
      * exact (Permutation_in _ (sorted_perm _ _ _ Hs) Hin).
      * eexists. now apply version_row_null_date.
      * rewrite E. eexists _, _. reflexivity.
    + eexists _, _. reflexivity.
Qed.

Lemma null_release_date_sample :
  exists t e,
    display_versions
      (JList [Sample.released_version;
              JDict [("id", JStr "10004"); ("releaseDate", JNull)]]) "text"
    = (t, Raise e).
Proof.
  apply (proj2 (proj2 (null_release_date_fails
                         [Sample.released_version;
                          JDict [("id", JStr "10004"); ("releaseDate", JNull)]]
                         [("id", JStr "10004"); ("releaseDate", JNull)]
                         ltac:(right; left; reflexivity) eq_refl))).
Defined.

Ltac run_gets := repeat first [rewrite outcome_bind_ret | rewrite get_dict].

Lemma issue_row_not_an_object (d : list (string * json)) :
  let fields := dict_get "fields" d in
  not_an_object fields
  || not_an_object (sub "issuetype" fields)
  || not_an_object (sub "status" fields)
  || not_an_object (sub "priority" fields) = true ->
  issue_row (JDict d) = Raise AttributeError.
Proof.
  intros fields H. subst fields. unfold issue_row. rewrite !get_dict.
  destruct (dict_get "fields" d) as [[| | | |?|f]|];
    try discriminate; run_gets; try reflexivity.
  cbn [sub not_an_object orb] in H.
  destruct (dict_get "issuetype" f) as [[| | | |?|n1]|];
    run_gets; try reflexivity;
    (destruct (dict_get "status" f) as [[| | | |?|n2]|];
     run_gets; try reflexivity;
     (destruct (dict_get "priority" f) as [[| | | |?|n3]|];
      run_gets; try reflexivity; discriminate)).
Qed.

(** X14.  When [fields], [issuetype], [status] or [priority] of an issue
    is present and is not an object ([null], for one), the row of the
    issue raises an [AttributeError]: with such an issue anywhere in the
    list, [display_issues] in text mode ends with an exception. *)
Theorem issue_with_non_object_fails (issues : list json)
  (d : list (string * json)) :
  In (JDict d) issues ->
  not_an_object (dict_get "fields" d)
  || not_an_object (sub "issuetype" (dict_get "fields" d))
  || not_an_object (sub "status" (dict_get "fields" d))
  || not_an_object (sub "priority" (dict_get "fields" d)) = true ->
  issue_row (JDict d) = Raise AttributeError
  /\ exists t e, display_issues (JList issues) "text" = (t, Raise e).
Proof.
  intros Hin Hbad.
  pose proof (issue_row_not_an_object d Hbad) as Hrow.
  split; [exact Hrow|].
  unfold display_issues.
  change (String.eqb "text" "json") with false. cbv iota.
  destruct issues as [|i issues]; [contradiction|].
  change (negb (truthy (JList (i :: issues)))) with false. cbv iota.
  change (Py.len (JList (i :: issues)))
    with (Ret (A := nat) (List.length (i :: issues))).
  change (Py.iter (JList (i :: issues))) with (Ret (i :: issues)).
  rewrite bind_lift_ret, !bind_print, bind_lift_ret.
  destruct (for_each_raises issue_row (JDict d) (i :: issues) Hin)
    as (t & e & E); [eauto|].
  rewrite E. eexists _, _. reflexivity.
Qed.

Lemma null_fields_sample :
  issue_row (JDict [("key", JStr "PROJ-9"); ("fields", JNull)])
  = Raise AttributeError.
Proof.
  apply (proj1 (issue_with_non_object_fails
                  [JDict [("key", JStr "PROJ-9"); ("fields", JNull)]]
                  [("key", JStr "PROJ-9"); ("fields", JNull)]
                  ltac:(left; reflexivity) eq_refl)).
Defined.

(** X15.  A document that is true as a condition and is not a list: in
    text mode [display_versions] prints nothing and raises, an
    [AttributeError] for an object or a text (their items have no
    [get]), a [TypeError] for a number or [true] (they have no items);
    [display_issues] raises the same exception, for an object or a text
    after the count of its keys or characters and the header. *)
Theorem text_display_of_non_list (v : json) :
  truthy v = true ->
  is_array v = false ->
  match Py.len v with
  | Ret n =>
      display_versions v "text" = ([], Raise AttributeError)
      /\ display_issues v "text"
         = ([Print ("Found " ++ Str.of_nat n ++ " issues:");
             Print (Str.replicate 120 "-");
             Print issues_header;
             Print (Str.replicate 120 "-")],
            Raise AttributeError)
  | Raise _ =>
      display_versions v "text" = ([], Raise TypeError)
      /\ display_issues v "text" = ([], Raise TypeError)
  end.
Proof.
  intros Ht Ha.
  destruct v as [|[|]|n|[|c s]|l|[|[k x] d]]; try discriminate.
  - split; reflexivity.
  - unfold display_versions, display_issues.
    change (String.eqb "text" "json") with false. cbv iota.
    rewrite Ht. split; reflexivity.
  - split; reflexivity.
  - split; reflexivity.
Qed.

Lemma error_object_as_versions :
  display_versions (JDict [("errorMessages", JList [])]) "text"
  = ([], Raise AttributeError).
Proof.
  apply (proj1 (text_display_of_non_list
                  (JDict [("errorMessages", JList [])]) eq_refl eq_refl)).
Defined.

(* ===================================================================== *)
(** * The exit status *)
(* ===================================================================== *)

Lemma benign_bind {A B : Type} (c : outcome A) (k : A -> outcome B) :
  benign c -> (forall a, benign (k a)) -> benign (bind c k).
Proof. destruct c as [a|e]; simpl; auto. Qed.

Lemma benign_get (obj : json) (k : string) (default : json) :
  benign (Py.get obj k default).
Proof. destruct obj; simpl; auto. Qed.

Lemma benign_len (obj : json) : benign (Py.len obj).
Proof. destruct obj; simpl; auto. Qed.

Lemma benign_iter (obj : json) : benign (Py.iter obj).
Proof. destruct obj; simpl; auto. Qed.

Lemma benign_format_left (w : nat) (v : json) : benign (Py.format_left w v).
Proof. destruct v; simpl; auto. Qed.

Lemma benign_slice_add (obj : json) (n : nat) (suffix : string) :
  benign (Py.slice_add obj n suffix).
Proof. destruct obj; simpl; auto. Qed.

Lemma benign_lt (a : json) : forall b, benign (Py.lt a b).
Proof.
  induction a as [|x|n|s|l IH|d IH] using json_ind; intros b;
    destruct b as [| | | |m|]; simpl; auto.
  revert m. induction IH as [|x l Hx _ IHl]; intros [|y m]; simpl; auto.
  destruct (Py.eq x y); auto.
Qed.

Lemma benign_insert_keyed (kx : json * json) (l : list (json * json)) :
  benign (Py.insert_keyed kx l).
Proof.
  induction l as [|ky l IH]; cbn [Py.insert_keyed]; [simpl; auto|].
  apply benign_bind; [apply benign_lt|]. intros [|]; [|simpl; auto].
  apply benign_bind; [exact IH | simpl; auto].
Qed.

Lemma benign_sort_keyed (l : list (json * json)) : benign (Py.sort_keyed l).
Proof.
  induction l as [|kx l IH]; cbn [Py.sort_keyed]; [simpl; auto|].
  apply benign_bind; [exact IH|]. intros s. apply benign_insert_keyed.
Qed.

Lemma benign_map_outcome {A B : Type} (f : A -> outcome B) (xs : list A) :
  (forall x, benign (f x)) -> benign (map_outcome f xs).
Proof.
  intros Hf. induction xs as [|x xs IH]; cbn [map_outcome]; [simpl; auto|].
  apply benign_bind; [apply Hf|]. intros y.
  apply benign_bind; [exact IH | simpl; auto].
Qed.

Lemma benign_sorted (key : json -> outcome json) (iterable : json) :
  (forall v, benign (key v)) -> benign (Py.sorted key iterable).
Proof.
  intros Hk. unfold Py.sorted.
  apply benign_bind; [apply benign_iter|]. intros items.
  apply benign_bind.
  - apply benign_map_outcome. intros v.
    apply benign_bind; [apply Hk | simpl; auto].
  - intros keyed. apply benign_bind; [apply benign_sort_keyed | simpl; auto].
Qed.

Lemma benign_release_key (v : json) : benign (release_key v).
Proof.
  unfold release_key. apply benign_bind; [apply benign_get|]. intros date.
  destruct (truthy date); [apply benign_get | simpl; auto].
Qed.

Lemma benign_truncate_summary (summary : json) :
  benign (truncate_summary summary).
Proof.
  unfold truncate_summary. apply benign_bind; [apply benign_len|]. intros n.
  destruct (70 <? n)%nat; [apply benign_slice_add | simpl; auto].
Qed.

Lemma benign_issue_row (issue : json) : benign (issue_row issue).
Proof.
  unfold issue_row.
  repeat first
    [ apply benign_get | apply benign_format_left
    | apply benign_truncate_summary
    | apply benign_bind; [|intros] ].
  simpl. auto.
Qed.

Lemma benign_version_row (version : json) : benign (version_row version).
Proof.
  unfold version_row.
  repeat first
    [ apply benign_get | apply benign_format_left
    | apply benign_bind; [|intros] ].
  simpl. auto.
Qed.

Lemma calm_bind {A B : Type} (c : io A) (k : A -> io B) :
  benign (snd c) -> (forall a, benign (snd (k a))) -> benign (snd (bind c k)).
Proof.
  destruct c as [t [a|e]]; simpl; auto.
  intros _ Hk. specialize (Hk a). now destruct (k a).
Qed.

Lemma calm_for_each {A : Type} (xs : list A) (body : A -> io unit) :
  (forall x, benign (snd (body x))) -> benign (snd (for_each xs body)).
Proof.
  intros Hb. induction xs as [|x xs IH]; [simpl; auto|].
  cbn [for_each]. apply calm_bind; auto.
Qed.

Ltac calm_steps :=
  repeat first
    [ apply calm_for_each; intros
    | apply calm_bind; [|intros]
    | exact I ].

(** In text or JSON mode a display ends normally, with an
    [AttributeError] or with a [TypeError]. *)
Lemma display_issues_benign (issues : json) (output_format : string) :
  benign (snd (display_issues issues output_format)).
Proof.
  unfold display_issues.
  destruct (String.eqb output_format "json"); [exact I|].
  destruct (negb (truthy issues)); [exact I|].
  calm_steps; try apply benign_len; try apply benign_iter;
    try apply benign_issue_row.
Qed.

Lemma display_versions_benign (versions : json) (output_format : string) :
  benign (snd (display_versions versions output_format)).
Proof.
  unfold display_versions.
  destruct (String.eqb output_format "json"); [exact I|].
  destruct (negb (truthy versions)); [exact I|].
  calm_steps; try apply benign_len; try apply benign_version_row.
  apply benign_sorted. apply benign_release_key.
Qed.

Lemma exit_status_benign {A : Type} (c : io A) :
  benign (snd c) -> exit_status c = 0%Z \/ exit_status c = 1%Z.
Proof.
  unfold exit_status. destruct (snd c) as [a|e]; simpl; auto.
  intros [-> | ->]; auto.
Qed.

(** Once the arguments are parsed, the exit status of a run is 0 or 1,
    and the only [sys.exit] it reaches is [sys.exit(1)]. *)
Lemma main_exit_0_or_1 (net : network) (a : args) :
  (exit_status (main net a) = 0%Z \/ exit_status (main net a) = 1%Z)
  /\ (forall code, snd (main net a) = Raise (SystemExit code) -> code = 1%Z).
Proof.
  assert (H : snd (main net a) = Raise (SystemExit 1)
              \/ benign (snd (main net a))).
  { rewrite main_branches.
    destruct (release_id_given a && list_issues a).
    - destruct (get_issues_for_version_run net (url a) (project_key a)
                  (passed_release_id a) (user a) (token a))
        as (t & res & E & _ & Herr & Hok).
      cbv zeta in Herr, Hok. rewrite E.
      destruct (is_error _).
      + destruct (Herr eq_refl) as [_ ->]. now left.
      + destruct (Hok eq_refl) as (resp & v & _ & _ & _ & ->). right.
        pose proof (benign_get v "issues" (JList [])) as Hb.
        destruct (Py.get v "issues" (JList [])) as [x|e].
        * rewrite bind_ret. cbn [snd]. apply display_issues_benign.
        * rewrite bind_raise. exact Hb.
    - destruct (get_project_versions_run net (url a) (project_key a)
                  (user a) (token a)) as (t & res & E & _ & Herr & Hok).
      cbv zeta in Herr, Hok. rewrite E.
      destruct (is_error _).
      + destruct (Herr eq_refl) as [_ ->]. now left.
      + destruct (Hok eq_refl) as (resp & v & _ & _ & _ & ->). right.
        rewrite bind_ret. cbn [snd]. apply display_versions_benign. }
  split.
  - destruct H as [H|H]; [|now apply exit_status_benign].
    right. unfold exit_status. now rewrite H.
  - intros code Hc. destruct H as [H|H].
    + rewrite H in Hc. now injection Hc as <-.
    + rewrite Hc in H. destruct H; discriminate.
Qed.

(** X16.  The exit status of a run is 0, 1 or 2: 2 after a usage error
    of [parse_args], 0 after [--help]; and once the arguments are
    parsed, 0 or 1 whatever the network answers, the only [sys.exit]
    reached then being [sys.exit(1)]. *)
Theorem program_exit_status (net : network) (p : parse_outcome) :
  (exit_status (program net p) = 0%Z \/ exit_status (program net p) = 1%Z
   \/ exit_status (program net p) = 2%Z)
  /\ match p with
     | Parsed a =>
         (exit_status (program net p) = 0%Z
          \/ exit_status (program net p) = 1%Z)
         /\ (forall code,
               snd (program net p) = Raise (SystemExit code) -> code = 1%Z)
     | UsageError =>
         program net p = ([], Raise (SystemExit 2))
         /\ exit_status (program net p) = 2%Z
     | HelpRequested help =>
         program net p = ([Print help], Raise (SystemExit 0))
         /\ exit_status (program net p) = 0%Z
     end.
Proof.
  destruct p as [a| |help]; cbn [program].
  - pose proof (main_exit_0_or_1 net a) as [H1 H2].
    split; [tauto | split; assumption].
  - split; [right; right; reflexivity | split; reflexivity].
  - split; [left; reflexivity | split; reflexivity].
Qed.

Lemma exit_code_of_not_found :
  exit_status (program (Sample.always Sample.not_found)
                 (Parsed Sample.list_releases)) = 0%Z
  \/ exit_status (program (Sample.always Sample.not_found)
                    (Parsed Sample.list_releases)) = 1%Z.
Proof.
  apply (proj1 (proj2 (program_exit_status (Sample.always Sample.not_found)
                         (Parsed Sample.list_releases)))).
Defined.

(* ===================================================================== *)
(** * The characters of the query and of the JSON output *)
(* ===================================================================== *)

Lemma all_chars_app (p : ascii -> bool) (a b : string) :
  all_chars p (a ++ b) = all_chars p a && all_chars p b.
Proof.
  induction a as [|c a IH]; [reflexivity|].
  simpl. now rewrite IH, andb_assoc.
Qed.

Lemma all_chars_mem (p : ascii -> bool) (s : string) (c : ascii) :
  all_chars p s = true -> Str.mem c s = true -> p c = true.
Proof.
  induction s as [|x s IH]; simpl; [discriminate|].
  intros H Hm. apply andb_true_iff in H as [Hx H].
  apply orb_true_iff in Hm as [Hm|Hm]; [|auto].
  apply Ascii.eqb_eq in Hm. now subst.
Qed.

Lemma quote_char_safe (c : ascii) :
  all_chars url_safe
    (String.concat EmptyString (map Url.quote_byte (Url.utf8 c))) = true.
Proof.
  destruct c as [[|] [|] [|] [|] [|] [|] [|] [|]]; vm_compute; reflexivity.
Qed.

Lemma quote_safe (s : string) : all_chars url_safe (Url.quote s) = true.
Proof.
  induction s as [|c s IH]; [reflexivity|].
  cbn [Url.quote]. now rewrite all_chars_app, quote_char_safe, IH.
Qed.

(** X17.  The percent-encoded query holds only letters, digits,
    [_ . - ~ /] and [%]: no space, [&], [=], [#], [?] or [+] of a
    project key or a release id reaches the URL as it is, so
    [&maxResults=1000] is always a parameter of its own. *)
Theorem encoded_query_characters (project_key version_id : string) :
  let encoded := Url.quote (jql_query project_key version_id) in
  all_chars url_safe encoded = true
  /\ (forall c, url_safe c = false -> Str.mem c encoded = false)
  /\ Str.mem " " encoded = false
  /\ Str.mem "&" encoded = false
  /\ Str.mem "=" encoded = false
  /\ Str.mem "#" encoded = false
  /\ Str.mem "?" encoded = false
  /\ Str.mem "+" encoded = false.
Proof.
  intros encoded.
  pose proof (quote_safe (jql_query project_key version_id)) as Hs.
  fold encoded in Hs.
  assert (H : forall c, url_safe c = false -> Str.mem c encoded = false).
  { intros c Hc. destruct (Str.mem c encoded) eqn:Hm; [|reflexivity].
    now rewrite (all_chars_mem url_safe encoded c Hs Hm) in Hc. }
  split; [exact Hs|]. split; [exact H|].
  repeat split; apply H; reflexivity.
Qed.

Lemma ampersand_is_encoded :
  Str.mem "&" (Url.quote (jql_query "A&B" "1 OR 1=1")) = false.
Proof.
  apply (proj1 (proj2 (encoded_query_characters "A&B" "1 OR 1=1"))).
  reflexivity.
Defined.

Lemma replicate_plain (n : nat) :
  all_chars plain_ascii (Str.replicate n " ") = true.
Proof. induction n as [|n IH]; [reflexivity | exact IH]. Qed.

Lemma newline_indent_plain (indent level : nat) :
  all_chars plain_ascii (Json.newline_indent indent level) = true.
Proof. unfold Json.newline_indent. simpl. apply replicate_plain. Qed.

Lemma of_Z_plain (n : Z) : all_chars plain_ascii (Str.of_Z n) = true.
Proof.
  assert (Hu : forall d, all_chars plain_ascii (NilEmpty.string_of_uint d)
                         = true).
  { induction d; simpl; auto. }
  assert (Hz : forall d, all_chars plain_ascii (NilZero.string_of_uint d)
                         = true).
  { intros d. destruct d; try apply Hu. reflexivity. }
  unfold Str.of_Z. destruct (Z.to_int n); simpl; apply Hz.
Qed.

Lemma escape_char_plain (c : ascii) :
  all_chars plain_ascii (Json.escape_char c) = true.
Proof.
  destruct c as [[|] [|] [|] [|] [|] [|] [|] [|]]; vm_compute; reflexivity.
Qed.

Lemma encode_string_plain (s : string) :
  all_chars plain_ascii (Json.encode_string s) = true.
Proof.
  unfold Json.encode_string. cbn [all_chars]. rewrite all_chars_app.
  assert (H : all_chars plain_ascii (Json.escape s) = true).
  { induction s as [|c s IH]; [reflexivity|].
    cbn [Json.escape]. now rewrite all_chars_app, escape_char_plain, IH. }
  now rewrite H.
Qed.

Lemma concat_plain (sep : string) (ls : list string) :
  all_chars plain_ascii sep = true ->
  Forall (fun s => all_chars plain_ascii s = true) ls ->
  all_chars plain_ascii (String.concat sep ls) = true.
Proof.
  intros Hsep. induction 1 as [|x ls Hx Hls IH]; [reflexivity|].
  destruct ls as [|y ls]; [exact Hx|].
  rewrite concat_cons, !all_chars_app, Hx, Hsep. exact IH.
Qed.

Lemma dumps_at_plain (indent : nat) (v : json) :
  forall level, all_chars plain_ascii (Json.dumps_at indent level v) = true.
Proof.
  induction v as [|b|n|s|l IH|d IH] using json_ind; intros level.
  - reflexivity.
  - destruct b; reflexivity.
  - apply of_Z_plain.
  - apply encode_string_plain.
  - destruct l as [|x l]; [reflexivity|].
    cbn [Json.dumps_at]. rewrite !all_chars_app, !newline_indent_plain.
    rewrite concat_plain; [reflexivity| |].
    + rewrite all_chars_app, newline_indent_plain. reflexivity.
    + apply Forall_map. eapply Forall_impl; [|exact IH]. intros y Hy.
      apply Hy.
  - destruct d as [|kv d]; [reflexivity|].
    cbn [Json.dumps_at]. rewrite !all_chars_app, !newline_indent_plain.
    rewrite concat_plain; [reflexivity| |].
    + rewrite all_chars_app, newline_indent_plain. reflexivity.
    + apply Forall_map. eapply Forall_impl; [|exact IH]. intros y Hy.
      cbv beta in *. rewrite !all_chars_app, encode_string_plain, Hy.
      reflexivity.
Qed.

(** X18.  With the format [json] both displays write printable ASCII
    and line breaks only, whatever characters the texts of the document
    hold: every other character is written as an escape. *)
Theorem json_output_is_ascii (v : json) :
  all_chars plain_ascii (stdout (fst (display_versions v "json"))) = true
  /\ all_chars plain_ascii (stdout (fst (display_issues v "json"))) = true.
Proof.
  assert (H : all_chars plain_ascii
                (Json.dumps 2 v ++ String "010" EmptyString) = true).
  { rewrite all_chars_app. unfold Json.dumps. now rewrite dumps_at_plain. }
  split; exact H.
Qed.

(* ===================================================================== *)
(** * The credentials *)
(* ===================================================================== *)

Lemma versions_by_reply (net : network)
  (jira_url project_key user1 token1 user2 token2 : string) :
  net (versions_endpoint jira_url project_key) (user1, token1) accept_json
  = net (versions_endpoint jira_url project_key) (user2, token2) accept_json ->
  exists t res,
    get_project_versions net jira_url project_key user1 token1
    = (HttpGet (versions_endpoint jira_url project_key) (user1, token1)
         accept_json :: t, res)
    /\ get_project_versions net jira_url project_key user2 token2
       = (HttpGet (versions_endpoint jira_url project_key) (user2, token2)
            accept_json :: t, res).
Proof.
  intros H. unfold get_project_versions, try_request, requests_get.
  rewrite <- H.
  destruct (net _ (user1, token1) accept_json) as [resp|cls msg];
    cbv beta iota.
  - destruct (_ ;; _) as [t' [v|e]].
    + eexists _, _. split; reflexivity.
    + destruct (versions_except project_key (Some resp) e) as [t'' r].
      eexists _, _. split; reflexivity.
  - destruct (versions_except project_key None _) as [t'' r].
    eexists _, _. split; reflexivity.
Qed.

Lemma issues_by_reply (net : network)
  (jira_url project_key version_id user1 token1 user2 token2 : string) :
  net (issues_endpoint jira_url project_key version_id) (user1, token1)
    accept_json
  = net (issues_endpoint jira_url project_key version_id) (user2, token2)
      accept_json ->
  exists t res,
    get_issues_for_version net jira_url project_key version_id user1 token1
    = (HttpGet (issues_endpoint jira_url project_key version_id)
         (user1, token1) accept_json :: t, res)
    /\ get_issues_for_version net jira_url project_key version_id
         user2 token2
       = (HttpGet (issues_endpoint jira_url project_key version_id)
            (user2, token2) accept_json :: t, res).
Proof.
  intros H. unfold get_issues_for_version, try_request, requests_get.
  rewrite <- H.
  destruct (net _ (user1, token1) accept_json) as [resp|cls msg];
    cbv beta iota.
  - destruct (_ ;; _) as [t' [v|e]].
    + eexists _, _. split; reflexivity.
    + destruct (issues_except (Some resp) e) as [t'' r].
      eexists _, _. split; reflexivity.
  - destruct (issues_except None _) as [t'' r].
    eexists _, _. split; reflexivity.
Qed.

(** X19.  The user name and the API token go into the request and
    nowhere else: two runs that differ in the credentials only, and get
    the same answer from the network, print the same lines and end the
    same way. *)
Theorem credentials_are_not_printed (net : network) (a : args)
  (user' token' : string) :
  let a' :=
    mkArgs (project_key a) (url a) user' token' (format a) (release_id a)
      (list_issues a) in
  net (request_url a) (user a, token a) accept_json
  = net (request_url a) (user', token') accept_json ->
  printed (fst (main net a')) = printed (fst (main net a))
  /\ snd (main net a') = snd (main net a).
Proof.
  intros a' H. rewrite (main_branches net a), (main_branches net a').
  rewrite request_url_branches in H.
  change (release_id_given a') with (release_id_given a).
  change (list_issues a') with (list_issues a).
  change (passed_release_id a') with (passed_release_id a).
  change (url a') with (url a). change (project_key a') with (project_key a).
  change (format a') with (format a).
  change (user a') with user'. change (token a') with token'.
  destruct (release_id_given a && list_issues a).
  - destruct (issues_by_reply net (url a) (project_key a)
                (passed_release_id a) (user a) (token a) user' token' H)
      as (t & res & -> & ->).
    destruct res as [v|e]; [rewrite !bind_ret | rewrite !bind_raise];
      split; reflexivity.
  - destruct (versions_by_reply net (url a) (project_key a)
                (user a) (token a) user' token' H)
      as (t & res & -> & ->).
    destruct res as [v|e]; [rewrite !bind_ret | rewrite !bind_raise];
      split; reflexivity.
Qed.

Lemma other_credentials_same_output :
  printed (fst (main (Sample.always Sample.not_found)
                  (mkArgs "PROJ" Sample.base "admin" "other" "text"
                     None false)))
  = printed (fst (main (Sample.always Sample.not_found)
                    Sample.list_releases)).
Proof.
  apply (proj1 (credentials_are_not_printed
                  (Sample.always Sample.not_found) Sample.list_releases
                  "admin" "other" eq_refl)).
Defined.
